(** * smartppt.py: folder-by-folder image layout on A3 slides

  A shallow embedding of [SmartPPTGenerator] (classification, the
  per-folder pairing and grouping loops of [generate_ppt], the two slide
  templates and the per-image fit) and the properties of it that the
  specification states.

  Numbers.  Image sizes, indices and counters are Python ints ([N], [nat],
  [Z]).  Lengths and ratios are Python floats, and the development has
  them twice.  The paging loops and the two templates are embedded over
  exact rationals [Q], with [Qeq] ([==]) for the equality of lengths: the
  properties stated there are about which images reach which page and
  about bounds that rounding keeps.  The classifier, the per-image fit and
  the mixed template are embedded once more in [Module B64] over binary64
  ([PrimFloat]), operation for operation as the script runs them; the
  properties of the ratio test and of the fitted rectangle are stated
  there, since they do not survive rounding in the form exact arithmetic
  gives them.

  Collaborators.  The file system ([os.path.exists], [os.listdir]), the
  image decoder ([PIL.Image.open]) and the document sink
  ([slide.shapes.add_picture]) are fields of a [World] record. *)

From Stdlib Require Import ZArith NArith QArith Qround Qminmax Qfield Lqa.
From Stdlib Require Import List Finite String Ascii Bool Arith Lia Permutation.
From Stdlib Require Import DecimalString DecimalNat.
From Stdlib Require Floats.
From Equations Require Import Equations.
Import ListNotations.

(* ===================================================================== *)
(** ** Python built-ins the script uses *)
(* ===================================================================== *)

Module Py.

(** Exceptions that escape or are caught in the modelled code. *)
Inductive exn : Type :=
| ZeroDivisionError
| IndexError
| SinkError.

(** A computation that returns or raises. *)
Inductive result (A : Type) : Type :=
| Ok (a : A)
| Raise (e : exn).
Arguments Ok {A} a.
Arguments Raise {A} e.

Definition bind {A B} (m : result A) (k : A -> result B) : result B :=
  match m with
  | Ok a => k a
  | Raise e => Raise e
  end.

(** [x < y], [x <= y] and [x > y] on floats. *)
Definition le (x y : Q) : bool := Qle_bool x y.
Definition lt (x y : Q) : bool := negb (Qle_bool y x).
Definition gt (x y : Q) : bool := lt y x.
Definition ge (x y : Q) : bool := le y x.

(** [min(a, b)]: the first argument unless the second is smaller. *)
Definition min (a b : Q) : Q := if lt b a then b else a.

(** [a / b] on floats and on ints (true division). *)
Definition truediv (a b : Q) : result Q :=
  if Qeq_bool b 0 then Raise ZeroDivisionError else Ok (a / b).

(** [math.ceil(x)]. *)
Definition ceil (x : Q) : Z := Qceiling x.

(** [sum(xs)] on a list of floats. *)
Definition sum (xs : list Q) : Q := fold_left Qplus xs 0.

(** [l[start:stop]] for [0 <= start]. *)
Definition slice {A} (l : list A) (start stop : nat) : list A :=
  firstn (stop - start) (skipn start l).

(** [for x in xs: st = body(st, x)], where the body may raise. *)
Fixpoint for_each {A S} (body : S -> A -> result S) (xs : list A) (st : S)
    : result S :=
  match xs with
  | [] => Ok st
  | x :: xs' =>
      match body st x with
      | Ok st' => for_each body xs' st'
      | Raise e => Raise e
      end
  end.

(** [l[i]] for [0 <= i]. *)
Definition getitem {A} (l : list A) (i : nat) : result A :=
  match nth_error l i with
  | Some x => Ok x
  | None => Raise IndexError
  end.

(** [str.lower()], on the ASCII letters. *)
Definition lower_ascii (c : ascii) : ascii :=
  let n := nat_of_ascii c in
  if (65 <=? n)%nat && (n <=? 90)%nat then ascii_of_nat (n + 32) else c.

Fixpoint lower (s : string) : string :=
  match s with
  | EmptyString => EmptyString
  | String c s' => String (lower_ascii c) (lower s')
  end.

(** [s.endswith(suffix)]. *)
Definition endswith (s suffix : string) : bool :=
  let n := String.length s in
  let m := String.length suffix in
  (m <=? n)%nat && String.eqb (substring (n - m) m s) suffix.

(** [f"{n}"] for an int [n >= 0]. *)
Definition str_of_nat (n : nat) : string :=
  NilEmpty.string_of_uint (Nat.to_uint n).

End Py.

Import Py.

Declare Scope py_scope.
Notation "x <- m ;; k" := (Py.bind m (fun x => k))
(at level 61, m at next level, right associativity) : py_scope.
Open Scope py_scope.

(** [os.path.join] and [os.path.basename] on POSIX paths.  [join] is used
  with a directory entry as second argument, which is never absolute. *)
Module OsPath.

Definition join (a b : string) : string :=
  if (String.length a =? 0)%nat || Py.endswith a "/"
  then (a ++ b)%string
  else (a ++ "/" ++ b)%string.

Fixpoint basename_aux (s acc : string) : string :=
  match s with
  | EmptyString => acc
  | String c s' =>
      if Ascii.eqb c "/" then basename_aux s' s' else basename_aux s' acc
  end.

Definition basename (p : string) : string := basename_aux p p.

End OsPath.

(* ===================================================================== *)
(** ** The collaborators *)
(* ===================================================================== *)

(** [dir p] is [None] when [os.path.exists(p)] is false and the listing
  [os.listdir(p)], in the order the system returns it, otherwise (a path
  that exists and cannot be listed is outside the model).
  [image_size p] is [(img.size[0], img.size[1])] when PIL opens and loads
  the file, [None] when it raises.  [add_picture_ok] tells whether the
  sink accepts a picture; when it does not, [add_picture] raises.  The
  border step that follows [add_picture] is taken not to raise here;
  [B64.World] has it as a step of its own. *)
Record World : Type := {
dir : string -> option (list string);
image_size : string -> option (N * N);
add_picture_ok : string -> Q -> Q -> Q -> Q -> bool
}.

(* ===================================================================== *)
(** ** Data *)
(* ===================================================================== *)

(** The dict returned by [robust_read_image]. *)
Record ImageInfo : Type := {
path : string;
filename : string;
width : N;
height : N;
ratio : Q;
success : bool
}.

(** Shapes on a slide: a picture with its rectangle and its border (the
  line width, when [border_width.pt > 0]), and the page-number box with
  its text. *)
Inductive Shape : Type :=
| Picture (file : string) (left top w h : Q) (border : option Q)
| TextBox (text : string).

Definition Slide : Type := list Shape.

(** The attributes of [SmartPPTGenerator] that the layout reads.  Lengths
  are in the unit of [Cm(...)] and [Pt(...)] (EMU). *)
Record SmartPPTGenerator : Type := {
image_folders : list string;
image_area_ratio : Q;
page_width : Q;
page_height : Q;
margin : Q;
gap : Q;
border_width : Q;
show_page_numbers : bool;
supported_formats : list string;
portrait_threshold : Q;
square_min : Q;
square_max : Q
}.

(** The variables of [generate_ppt]: the slides of [prs] in order, the two
    page counters, the summary entries [(folder_name, note, pages)] and the
    two indices of the pairing loop. *)
Record Vars : Type := {
prs_slides : list Slide;
total_slide_count : nat;
folder_summary : list (string * string * nat);
folder_slide_count : nat;
square_idx : nat;
portrait_idx : nat
}.

Definition initial_vars : Vars :=
  {| prs_slides := [];
     total_slide_count := 0;
     folder_summary := [];
     folder_slide_count := 0;
     square_idx := 0;
     portrait_idx := 0 |}.

(** [folder_summary.append(entry)]. *)
Definition append_summary (v : Vars) (entry : string * string * nat) : Vars :=
  {| prs_slides := prs_slides v;
     total_slide_count := total_slide_count v;
     folder_summary := folder_summary v ++ [entry];
     folder_slide_count := folder_slide_count v;
     square_idx := square_idx v;
     portrait_idx := portrait_idx v |}.

(** Remembering the equation of a test, for definitions by cases. *)
Definition inspect {A} (a : A) : {b : A | a = b} := exist _ a eq_refl.

(** The two lists a folder's images are sorted into. *)
Inductive Bucket : Type := Portrait | SquareOrLandscape.

(* ===================================================================== *)
(** ** The generator *)
(* ===================================================================== *)

Section Generator.

Variable self : SmartPPTGenerator.
Variable world : World.

(** [robust_read_image]: any exception, the division by a zero height
    included, gives [None]. *)
Definition robust_read_image (filepath : string) : option ImageInfo :=
  match image_size world filepath with
  | None => None
  | Some (w, h) =>
      match Py.truediv (inject_Z (Z.of_N w)) (inject_Z (Z.of_N h)) with
      | Raise _ => None
      | Ok r =>
          Some {| path := filepath;
                  filename := OsPath.basename filepath;
                  width := w;
                  height := h;
                  ratio := r;
                  success := true |}
      end
  end.

(** The [if]/[elif]/[else] of [classify_images_in_folder]. *)
Definition classify (r : Q) : Bucket :=
  if Py.le r (portrait_threshold self) then Portrait
  else if Py.lt (square_min self) r && Py.lt r (square_max self)
       then SquareOrLandscape
       else SquareOrLandscape.

Definition is_supported (name : string) : bool :=
  existsb (fun ext => Py.endswith (Py.lower name) ext)
          (supported_formats self).

(** One iteration of the [for filename in os.listdir(...)] loop, on the
    triple [(portraits, squares, failed)]. *)
Definition classify_step (folder_path : string)
    (acc : list ImageInfo * list ImageInfo * nat) (name : string)
    : list ImageInfo * list ImageInfo * nat :=
  let '(portraits, squares, failed) := acc in
  if is_supported name then
    let filepath := OsPath.join folder_path name in
    match robust_read_image filepath with
    | Some img_info =>
        match classify (ratio img_info) with
        | Portrait => (portraits ++ [img_info], squares, failed)
        | SquareOrLandscape => (portraits, squares ++ [img_info], failed)
        end
    | None => (portraits, squares, S failed)
    end
  else acc.

Definition classify_images_in_folder (folder_path : string)
    (listing : list string) : list ImageInfo * list ImageInfo * nat :=
  fold_left (classify_step folder_path) listing ([], [], 0%nat).

(** *** Geometry *)

Definition available_width : Q := page_width self - 2 * margin self.
Definition available_height : Q := page_height self - 2 * margin self.

(** Lines 263-272 of [add_image_to_slide]: the rectangle
    [(left_c, top_c, new_width, new_height)] handed to the sink. *)
Definition fit_rect (orig_ratio left top width height : Q)
    : result (Q * Q * Q * Q) :=
  dims <- (if Py.ge orig_ratio 1 then
             let new_width := Py.min width (height * orig_ratio) in
             new_height <- Py.truediv new_width orig_ratio ;;
             Ok (new_width, new_height)
           else
             q <- Py.truediv width orig_ratio ;;
             let new_height := Py.min height q in
             let new_width := new_height * orig_ratio in
             Ok (new_width, new_height)) ;;
  let '(new_width, new_height) := dims in
  let left_c := left + (width - new_width) / 2 in
  let top_c := top + (height - new_height) / 2 in
  Ok (left_c, top_c, new_width, new_height).

(** [slide.shapes.add_picture(...)] followed by the border setting. *)
Definition add_picture (slide : Slide) (file : string)
    (left top width height : Q) : result Slide :=
  if add_picture_ok world file left top width height then
    let border :=
      if Py.gt (border_width self) 0 then Some (border_width self)
      else None in
    Ok (slide ++ [Picture file left top width height border])
  else Raise SinkError.

(** [add_image_to_slide]: the [try]/[except] turns every exception into
    the result [False] and leaves the slide as it was. *)
Definition add_image_to_slide (slide : Slide) (img_info : ImageInfo)
    (left top width height : Q) : Slide * bool :=
  match
    (rect <- fit_rect (ratio img_info) left top width height ;;
     let '(left_c, top_c, new_width, new_height) := rect in
     add_picture slide (path img_info) left_c top_c new_width new_height)
  with
  | Ok slide' => (slide', true)
  | Raise _ => (slide, false)
  end.

(** The cells [create_mixed_slide] computes: the rectangle of the square
    image and the rectangle of the portrait image. *)
Definition mixed_cells (square_img portrait_img : ImageInfo)
    : result ((Q * Q * Q * Q) * (Q * Q * Q * Q)) :=
  let unified_height := available_height * image_area_ratio self in
  let square_width := unified_height * ratio square_img in
  let portrait_width := unified_height * ratio portrait_img in
  let total_width := square_width + gap self + portrait_width in
  scaled <- (if Py.gt total_width available_width then
               scale <- Py.truediv available_width total_width ;;
               let square_width := square_width * scale in
               let portrait_width := portrait_width * scale in
               let unified_height := unified_height * scale in
               let total_width := square_width + gap self + portrait_width in
               Ok (square_width, portrait_width, unified_height, total_width)
             else
               Ok (square_width, portrait_width, unified_height, total_width)) ;;
  let '(square_width, portrait_width, unified_height, total_width) := scaled in
  let start_x := margin self + (available_width - total_width) / 2 in
  let start_y := margin self + (available_height - unified_height) / 2 in
  Ok ((start_x, start_y, square_width, unified_height),
      (start_x + square_width + gap self, start_y, portrait_width,
       unified_height)).

Definition create_mixed_slide (slide : Slide)
    (square_img portrait_img : ImageInfo) : result Slide :=
  cells <- mixed_cells square_img portrait_img ;;
  let '((x1, y1, w1, h1), (x2, y2, w2, h2)) := cells in
  let slide := fst (add_image_to_slide slide square_img x1 y1 w1 h1) in
  let slide := fst (add_image_to_slide slide portrait_img x2 y2 w2 h2) in
  Ok slide.

(** The row [create_portrait_slide] computes:
    [(image_widths, unified_height, start_x, start_y)]. *)
Definition portrait_row (portrait_imgs : list ImageInfo)
    : result (list Q * Q * Q * Q) :=
  let unified_height := available_height * image_area_ratio self in
  let image_widths :=
    map (fun img => unified_height * ratio img) portrait_imgs in
  let total_gap :=
    inject_Z (Z.of_nat (List.length portrait_imgs) - 1) * gap self in
  let total_width := Py.sum image_widths + total_gap in
  scaled <- (if Py.gt total_width available_width then
               scale <- Py.truediv available_width total_width ;;
               let unified_height := unified_height * scale in
               let image_widths :=
                 map (fun img => unified_height * ratio img) portrait_imgs in
               let total_width := Py.sum image_widths + total_gap in
               Ok (image_widths, unified_height, total_width)
             else Ok (image_widths, unified_height, total_width)) ;;
  let '(image_widths, unified_height, total_width) := scaled in
  let start_x := margin self + (available_width - total_width) / 2 in
  let start_y := margin self + (available_height - unified_height) / 2 in
  Ok (image_widths, unified_height, start_x, start_y).

(** The body of [for i, img in enumerate(portrait_imgs)], on
    [(slide, current_x)]. *)
Definition portrait_place (image_widths : list Q) (start_y unified_height : Q)
    (st : Slide * Q) (i_img : nat * ImageInfo) : result (Slide * Q) :=
  let '(slide, current_x) := st in
  let '(i, img) := i_img in
  w <- Py.getitem image_widths i ;;
  let slide :=
    fst (add_image_to_slide slide img current_x start_y w unified_height) in
  Ok (slide, current_x + w + gap self).

Definition create_portrait_slide (slide : Slide)
    (portrait_imgs : list ImageInfo) : result Slide :=
  row <- portrait_row portrait_imgs ;;
  let '(image_widths, unified_height, start_x, start_y) := row in
  st <- Py.for_each (portrait_place image_widths start_y unified_height)
          (combine (seq 0 (List.length portrait_imgs)) portrait_imgs)
          (slide, start_x) ;;
  Ok (fst st).

(** [add_page_number]; the sink is taken to accept the text box. *)
Definition add_page_number (slide : Slide) (page_num : nat) : Slide :=
  if negb (show_page_numbers self) then slide
  else slide ++ [TextBox (Py.str_of_nat page_num)].

(** *** [generate_ppt] *)

(** The body of [while square_idx < len(squares) and portrait_idx <
    len(portraits)]: one mixed page. *)
Definition mixed_body (squares portraits : list ImageInfo) (v : Vars)
    : result Vars :=
  let slide : Slide := [] in
  let total_slide_count := S (total_slide_count v) in
  let folder_slide_count := S (folder_slide_count v) in
  square_img <- Py.getitem squares (square_idx v) ;;
  portrait_img <- Py.getitem portraits (portrait_idx v) ;;
  slide <- create_mixed_slide slide square_img portrait_img ;;
  let slide := add_page_number slide total_slide_count in
  Ok {| prs_slides := prs_slides v ++ [slide];
        total_slide_count := total_slide_count;
        folder_summary := folder_summary v;
        folder_slide_count := folder_slide_count;
        square_idx := S (square_idx v);
        portrait_idx := S (portrait_idx v) |}.

Definition mixed_cond (squares portraits : list ImageInfo) (v : Vars)
    : bool :=
  (square_idx v <? List.length squares)%nat
  && (portrait_idx v <? List.length portraits)%nat.

Equations? mixed_loop (squares portraits : list ImageInfo) (v : Vars)
    : result Vars by wf (List.length squares - square_idx v)%nat Nat.lt :=
mixed_loop squares portraits v
    with inspect (mixed_cond squares portraits v) := {
  | exist _ true Hcond
      with inspect (mixed_body squares portraits v) := {
      | exist _ (Ok v') Hbody := mixed_loop squares portraits v'
      | exist _ (Raise e) _ := Raise e }
  | exist _ false _ := Ok v }.
Proof.
  assert (Hidx : square_idx v' = S (square_idx v)).
  { revert Hbody. unfold mixed_body, Py.bind.
    destruct (Py.getitem squares _); [| discriminate].
    destruct (Py.getitem portraits _); [| discriminate].
    destruct (create_mixed_slide _ _ _); [| discriminate].
    intros H. injection H as <-. reflexivity. }
  rewrite Hidx.
  unfold mixed_cond in Hcond.
  apply andb_prop in Hcond. destruct Hcond as [Hs _].
  apply Nat.ltb_lt in Hs. lia.
Qed.

(** The body of [for group in range(portrait_groups)]: one portrait page.
    [portrait_idx] is not advanced by this loop. *)
Definition group_body (portraits : list ImageInfo) (v : Vars) (group : nat)
    : result Vars :=
  let slide : Slide := [] in
  let total_slide_count := S (total_slide_count v) in
  let folder_slide_count := S (folder_slide_count v) in
  let start := (portrait_idx v + group * 3)%nat in
  let stop := Nat.min (start + 3) (List.length portraits) in
  slide <- create_portrait_slide slide (Py.slice portraits start stop) ;;
  let slide := add_page_number slide total_slide_count in
  Ok {| prs_slides := prs_slides v ++ [slide];
        total_slide_count := total_slide_count;
        folder_summary := folder_summary v;
        folder_slide_count := folder_slide_count;
        square_idx := square_idx v;
        portrait_idx := portrait_idx v |}.

(** Step 2.2: the pages of the portraits that are left. *)
Definition portrait_pages (portraits : list ImageInfo) (v : Vars)
    : result Vars :=
  let remaining_portraits :=
    (Z.of_nat (List.length portraits) - Z.of_nat (portrait_idx v))%Z in
  if (remaining_portraits >? 0)%Z then
    let portrait_groups := Py.ceil (inject_Z remaining_portraits / 3) in
    Py.for_each (group_body portraits) (seq 0 (Z.to_nat portrait_groups)) v
  else Ok v.

(** [status_note], the second component of a folder's summary entry. *)
Definition status_note (squares portraits : list ImageInfo) (v : Vars)
    : string :=
  let unused_squares :=
    (Z.of_nat (List.length squares) - Z.of_nat (square_idx v))%Z in
  ("已用 "
   ++ Py.str_of_nat (Nat.min (List.length squares) (List.length portraits))
   ++ " 方"
   ++ (if (unused_squares >? 0)%Z
       then ", " ++ Py.str_of_nat (Z.to_nat unused_squares) ++ " 方未匹配"
       else ""))%string.

(** The body of [for folder_index, folder_path in enumerate(image_folders)].
    The configured paths are absolute and normalised
    ([get_image_folders] applies [os.path.abspath]), so [os.path.normpath]
    leaves them as they are. *)
Definition folder_body (v : Vars) (folder_path : string) : result Vars :=
  let folder_name := OsPath.basename folder_path in
  match dir world folder_path with
  | None =>
      Ok (append_summary v (folder_name, "文件夹不存在"%string, 0%nat))
  | Some listing =>
      let '(portraits, squares, failed) :=
        classify_images_in_folder folder_path listing in
      let total_imgs := (List.length portraits + List.length squares)%nat in
      if (total_imgs =? 0)%nat then
        Ok (append_summary v (folder_name, "无图片"%string, 0%nat))
      else
        let v := {| prs_slides := prs_slides v;
                    total_slide_count := total_slide_count v;
                    folder_summary := folder_summary v;
                    folder_slide_count := 0;
                    square_idx := 0;
                    portrait_idx := 0 |} in
        v <- mixed_loop squares portraits v ;;
        v <- portrait_pages portraits v ;;
        Ok (append_summary v
              (folder_name, status_note squares portraits v,
               folder_slide_count v))
  end.

(** [generate_ppt], up to [prs.save]: [None] when no folder is configured,
    the variables at the end of the folder loop otherwise. *)
Definition generate_ppt : result (option Vars) :=
  if (List.length (image_folders self) =? 0)%nat then Ok None
  else
    v <- Py.for_each folder_body (image_folders self) initial_vars ;;
    Ok (Some v).

End Generator.

(* ===================================================================== *)
(** ** The reference configuration and a small world *)
(* ===================================================================== *)

(** The defaults of [ConfigManager]: [Cm(42)], [Cm(29.7)], [Cm(1.5)],
    [Cm(1.2)] and [Pt(1.0)] in EMU. *)
Definition default_generator (folders : list string) : SmartPPTGenerator :=
  {| image_folders := folders;
     image_area_ratio := 7 # 10;
     page_width := 15120000;
     page_height := 10692000;
     margin := 540000;
     gap := 432000;
     border_width := 12700;
     show_page_numbers := true;
     supported_formats :=
       [".jpg"; ".jpeg"; ".png"; ".bmp"; ".gif"; ".tiff"; ".tif"; ".webp";
        ".jfif"]%string;
     portrait_threshold := 9 # 10;
     square_min := 9 # 10;
     square_max := 11 # 10 |}.

Module Demo.

Open Scope string_scope.

(** Five folders: [/a] with two portraits and three landscapes or
    squares, [/b] with files that are not images or cannot be read, [/c]
    with four portraits, [/d] with two landscapes or squares, [/e] with one
    square and five portraits, [/f] with a 3000x1000 panorama and a
    600x1200 portrait; [/missing] does not exist.  Every other [.jpg] is a
    600x1200 portrait. *)
Definition world : World :=
  {| dir := fun p =>
       if String.eqb p "/a" then
         Some ["p1.jpg"; "wide.PNG"; "sq.png"; "notes.txt"; "p2.jpeg";
               "pano.jpg"]
       else if String.eqb p "/b" then Some ["readme.md"; "broken.jpg"]
       else if String.eqb p "/c" then
         Some ["1.jpg"; "2.jpg"; "3.jpg"; "4.jpg"]
       else if String.eqb p "/d" then Some ["pano.jpg"; "sq.png"]
       else if String.eqb p "/e" then
         Some ["s.png"; "1.jpg"; "2.jpg"; "3.jpg"; "4.jpg"; "5.jpg"]
       else if String.eqb p "/f" then Some ["pano.jpg"; "tall.jpg"]
       else None;
     image_size := fun p =>
       if String.eqb p "/a/p1.jpg" then Some (600, 1200)%N
       else if String.eqb p "/a/wide.PNG" then Some (1600, 900)%N
       else if String.eqb p "/a/sq.png" then Some (1000, 1000)%N
       else if String.eqb p "/a/p2.jpeg" then Some (900, 1500)%N
       else if String.eqb p "/a/pano.jpg" then Some (3000, 1000)%N
       else if String.eqb p "/d/pano.jpg" then Some (3000, 1000)%N
       else if String.eqb p "/d/sq.png" then Some (1000, 1000)%N
       else if String.eqb p "/e/s.png" then Some (1000, 1000)%N
       else if String.eqb p "/f/pano.jpg" then Some (3000, 1000)%N
       else if String.eqb p "/b/broken.jpg" then None
       else if Py.endswith p ".jpg" then Some (600, 1200)%N
       else None;
     add_picture_ok := fun _ _ _ _ _ => true |}.

Definition generator : SmartPPTGenerator :=
  default_generator ["/a"; "/missing"; "/b"; "/c"; "/d"].

End Demo.

(* ===================================================================== *)
(** ** Notions used in the statements *)
(* ===================================================================== *)

(** The size [fit_rect] computes, in closed form. *)
Definition fit_width (r width height : Q) : Q :=
  if Py.ge r 1 then Py.min width (height * r)
  else Py.min height (width / r) * r.

Definition fit_height (r width height : Q) : Q :=
  if Py.ge r 1 then Py.min width (height * r) / r
  else Py.min height (width / r).

(** The files of the pictures of a slide, their widths, and the texts of
    its text boxes, in the order the shapes were added. *)
Definition slide_files (s : Slide) : list string :=
  flat_map (fun sh => match sh with
                      | Picture f _ _ _ _ _ => [f]
                      | TextBox _ => []
                      end) s.

Definition slide_widths (s : Slide) : list Q :=
  flat_map (fun sh => match sh with
                      | Picture _ _ _ w _ _ => [w]
                      | TextBox _ => []
                      end) s.

Definition slide_texts (s : Slide) : list string :=
  flat_map (fun sh => match sh with
                      | Picture _ _ _ _ _ _ => []
                      | TextBox t => [t]
                      end) s.

(** [subseq l1 l2]: [l1] is [l2] with some elements left out. *)
Inductive subseq {A : Type} : list A -> list A -> Prop :=
| subseq_nil : subseq [] []
| subseq_skip x l1 l2 : subseq l1 l2 -> subseq l1 (x :: l2)
| subseq_keep x l1 l2 : subseq l1 l2 -> subseq (x :: l1) (x :: l2).

(** [extends v v' new adv]: [v'] is [v] after the pages [new] were added
    and both indices were advanced by [adv]. *)
Definition extends (v v' : Vars) (new : list Slide) (adv : nat) : Prop :=
  prs_slides v' = prs_slides v ++ new
  /\ total_slide_count v' = (total_slide_count v + List.length new)%nat
  /\ folder_summary v' = folder_summary v
  /\ folder_slide_count v' = (folder_slide_count v + List.length new)%nat
  /\ square_idx v' = (square_idx v + adv)%nat
  /\ portrait_idx v' = (portrait_idx v + adv)%nat.

(** The number of iterations of the grouping loop. *)
Definition portrait_groups (portraits : list ImageInfo) (portrait_idx : nat)
    : nat :=
  let remaining_portraits :=
    (Z.of_nat (List.length portraits) - Z.of_nat portrait_idx)%Z in
  if (remaining_portraits >? 0)%Z
  then Z.to_nat (Py.ceil (inject_Z remaining_portraits / 3))
  else 0%nat.

(** The second component of a processed folder's summary entry, for [S]
    squares and [P] portraits. *)
Definition note_text (S P : nat) : string :=
  ("已用 " ++ Py.str_of_nat (Nat.min S P) ++ " 方"
   ++ (if (P <? S)%nat
       then ", " ++ Py.str_of_nat (S - P) ++ " 方未匹配"
       else ""))%string.

(** The page count the specification gives for [S] squares and [P]
    portraits: [min(S,P) + ceil(max(0, P - min(S,P)) / 3)]. *)
Definition spec_page_count (S P : Z) : Z :=
  (Z.min S P + Qceiling (inject_Z (Z.max 0 (P - Z.min S P)) / 3))%Z.

(** The paths of the pairs the pairing loop forms. *)
Fixpoint paired_paths (squares portraits : list ImageInfo) : list string :=
  match squares, portraits with
  | square_img :: squares', portrait_img :: portraits' =>
      path square_img :: path portrait_img :: paired_paths squares' portraits'
  | _, _ => []
  end.

Section Notions.

Variable self : SmartPPTGenerator.
Variable world : World.

(** The test of the first branch of the classifier. *)
Definition is_portrait (img : ImageInfo) : bool :=
  Py.le (ratio img) (portrait_threshold self).

(** The records of the supported files of a listing that could be read, in
    listing order. *)
Definition inspected (folder_path : string) (listing : list string)
    : list ImageInfo :=
  flat_map (fun name =>
              if is_supported self name then
                match robust_read_image world (OsPath.join folder_path name) with
                | Some img_info => [img_info]
                | None => []
                end
              else []) listing.

(** The supported files of a listing that could not be read. *)
Definition unreadable (folder_path : string) (listing : list string)
    : list string :=
  filter (fun name =>
            is_supported self name
            && match robust_read_image world (OsPath.join folder_path name) with
               | Some _ => false
               | None => true
               end) listing.

(** The border every picture of a run gets. *)
Definition border : option Q :=
  if Py.gt (border_width self) 0 then Some (border_width self) else None.

(** The pages the pairing loop adds for the squares and portraits that
    are left, the first with page number [num]. *)
Fixpoint mixed_pages (num : nat) (squares portraits : list ImageInfo)
    (new : list Slide) : Prop :=
  match squares, portraits with
  | square_img :: squares', portrait_img :: portraits' =>
      match new with
      | slide :: new' =>
          (exists s, create_mixed_slide self world [] square_img portrait_img
                     = Ok s
                     /\ slide = add_page_number self s num)
          /\ mixed_pages (S num) squares' portraits' new'
      | [] => False
      end
  | _, _ => new = []
  end.

(** The pages the grouping loop adds for the portraits [rest], three to a
    page, the first with page number [num]. *)
Fixpoint row_pages (num : nat) (rest : list ImageInfo) (new : list Slide)
    : Prop :=
  match new with
  | [] => True
  | slide :: new' =>
      (exists s, create_portrait_slide self world [] (firstn 3 rest) = Ok s
                 /\ slide = add_page_number self s num)
      /\ row_pages (S num) (skipn 3 rest) new'
  end.

(** What a folder with images leaves behind: the mixed pages, then the
    portrait rows, the counters and the summary entry. *)
Definition folder_done (v : Vars) (folder_path : string)
    (portraits squares : list ImageInfo) (v' : Vars) : Prop :=
  let m := Nat.min (List.length squares) (List.length portraits) in
  exists mixed rows,
    prs_slides v' = prs_slides v ++ mixed ++ rows
    /\ total_slide_count v'
       = (total_slide_count v + List.length (mixed ++ rows))%nat
    /\ folder_slide_count v' = List.length (mixed ++ rows)
    /\ folder_summary v'
       = folder_summary v
         ++ [(OsPath.basename folder_path,
              note_text (List.length squares) (List.length portraits),
              List.length (mixed ++ rows))]
    /\ List.length mixed = m
    /\ List.length rows = portrait_groups portraits m
    /\ mixed_pages (S (total_slide_count v)) squares portraits mixed
    /\ row_pages (S (total_slide_count v + m)) (skipn m portraits)
         rows.

(** The text boxes of the page with number [n]. *)
Definition label (n : nat) : list string :=
  if show_page_numbers self then [Py.str_of_nat n] else [].

(** The counter equals the number of slides, and the slide at position
    [k], from 0, is a slide that was handed to [add_page_number] with the
    number [k + 1]: it carries the text box of [k + 1] when page numbers
    are shown, and no slide has a text box otherwise. *)
Definition numbered (v : Vars) : Prop :=
  total_slide_count v = List.length (prs_slides v)
  /\ (forall k slide,
        nth_error (prs_slides v) k = Some slide ->
        exists s, slide = add_page_number self s (S k) /\ slide_texts s = [])
  /\ map slide_texts (prs_slides v)
     = map label (seq 1 (List.length (prs_slides v))).

(** The width a page takes: the widths of its pictures and a gap between
    neighbours. *)
Definition placed_total (s : Slide) : Q :=
  Py.sum (slide_widths s)
  + inject_Z (Z.of_nat (List.length (slide_widths s)) - 1) * gap self.

(** What a step of the run gives: its result satisfies [P], or it raised
    and the canvas is narrower than its two margins. *)
Definition returns {A : Type} (r : result A) (P : A -> Prop) : Prop :=
  match r with
  | Ok a => P a
  | Raise _ => available_width self < 0
  end.

End Notions.

(* ===================================================================== *)
(** ** [ConfigManager] *)
(* ===================================================================== *)

(** [str.split(sep)] for a separator of one character and [str.strip()].
    A string is the sequence of the bytes of its UTF-8 encoding; the white
    space [strip] removes is the one of [str.isspace]: U+0009 to U+000D,
    U+001C to U+0020, U+0085, U+00A0, U+1680, U+2000 to U+200A, U+2028,
    U+2029, U+202F, U+205F and U+3000. *)
Module PyStr.

Fixpoint split (sep : ascii) (s : string) : list string :=
  match s with
  | EmptyString => [EmptyString]
  | String c s' =>
      if Ascii.eqb c sep then EmptyString :: split sep s'
      else match split sep s' with
           | piece :: pieces => String c piece :: pieces
           | [] => [String c EmptyString]
           end
  end.

Definition space1 (a : nat) : bool :=
  ((9 <=? a) && (a <=? 13)) || ((28 <=? a) && (a <=? 32)).

(** The two and three bytes of a white space character, first byte
    first. *)
Definition space2 (a b : nat) : bool :=
  (a =? 194) && ((b =? 133) || (b =? 160)).

Definition space3 (a b c : nat) : bool :=
  ((a =? 225) && (b =? 154) && (c =? 128))
  || ((a =? 226) && (b =? 128)
      && (((128 <=? c) && (c <=? 138)) || (c =? 168) || (c =? 169)
          || (c =? 175)))
  || ((a =? 226) && (b =? 129) && (c =? 159))
  || ((a =? 227) && (b =? 128) && (c =? 128)).

(** Dropping the white space at the head of [s]; [backwards] when [s] is
    a string read from its end. *)
Fixpoint drop_space (backwards : bool) (s : string) : string :=
  match s with
  | EmptyString => EmptyString
  | String c1 s1 =>
      let a := nat_of_ascii c1 in
      if space1 a then drop_space backwards s1
      else
        match s1 with
        | EmptyString => s
        | String c2 s2 =>
            let b := nat_of_ascii c2 in
            if (if backwards then space2 b a else space2 a b)
            then drop_space backwards s2
            else
              match s2 with
              | EmptyString => s
              | String c3 s3 =>
                  let c := nat_of_ascii c3 in
                  if (if backwards then space3 c b a else space3 a b c)
                  then drop_space backwards s3
                  else s
              end
        end
  end.

Fixpoint rev_append (s acc : string) : string :=
  match s with
  | EmptyString => acc
  | String c s' => rev_append s' (String c acc)
  end.

Definition rev (s : string) : string := rev_append s EmptyString.

Definition strip (s : string) : string :=
  rev (drop_space true (rev (drop_space false s))).

End PyStr.

(** The three path functions [get_image_folders] applies. *)
Record PathEnv : Type := {
expandvars : string -> string;
expanduser : string -> string;
abspath : string -> string
}.

(** [ConfigManager]: [config s k] is [self.config[s][k]], [None] when it
    raises [KeyError]. *)
Record ConfigManager : Type := {
config : string -> string -> option string
}.

Module Defaults.

Open Scope string_scope.

(** [self.defaults], a dict of two dicts; [None] is [KeyError]. *)
Definition paths (key : string) : option string :=
  if String.eqb key "image_folders" then Some "D:/我的图片"
  else if String.eqb key "output_ppt" then Some "综合图片排版_A3.pptx"
  else if String.eqb key "image_area_ratio" then Some "0.7"
  else if String.eqb key "margin" then Some "1.5"
  else if String.eqb key "gap" then Some "1.2"
  else None.

Definition settings (key : string) : option string :=
  if String.eqb key "show_filenames" then Some "false"
  else if String.eqb key "border_width" then Some "1.0"
  else if String.eqb key "show_page_numbers" then Some "true"
  else if String.eqb key "portrait_threshold" then Some "0.9"
  else if String.eqb key "square_min_threshold" then Some "0.9"
  else if String.eqb key "square_max_threshold" then Some "1.1"
  else if String.eqb key "supported_formats" then
    Some ".jpg, .jpeg, .png, .bmp, .gif, .tiff, .tif, .webp, .jfif"
  else None.

Definition defaults (section key : string) : option string :=
  if String.eqb section "PATHS" then paths key
  else if String.eqb section "SETTINGS" then settings key
  else None.

End Defaults.

Section Config.

Variable cm : ConfigManager.
Variable env : PathEnv.

(** The value a getter works on: the configured one, or the default when
    the section or the key is missing; [None] when the default is missing
    too and [KeyError] escapes.  Values are taken as they are written:
    the interpolation of [%] by [configparser] is outside the model. *)
Definition value_or_default (section key : string) : option string :=
  match config cm section key with
  | Some value => Some value
  | None => Defaults.defaults section key
  end.

(** [get_string]. *)
Definition get_string (section key : string) : option string :=
  value_or_default section key.

(** [get_bool]. *)
Definition get_bool (section key : string) : option bool :=
  match value_or_default section key with
  | Some value =>
      let value := Py.lower value in
      Some (existsb (String.eqb value) ["true"; "yes"; "1"; "on"]%string)
  | None => None
  end.

(** [get_list]. *)
Definition get_list (section key : string) : option (list string) :=
  match value_or_default section key with
  | Some value => Some (map PyStr.strip (PyStr.split "," value))
  | None => None
  end.

(** The body of [for folder in folders_str.split(',')] in
    [get_image_folders]. *)
Definition add_folder (folders : list string) (folder : string)
    : list string :=
  let folder := PyStr.strip folder in
  if negb (String.length folder =? 0)%nat then
    let folder := expandvars env folder in
    let folder := expanduser env folder in
    let folder := abspath env folder in
    folders ++ [folder]
  else folders.

(** [get_image_folders]. *)
Definition get_image_folders : list string :=
  match config cm "PATHS" "image_folders" with
  | Some folders_str =>
      fold_left add_folder (PyStr.split "," folders_str) []
  | None =>
      match Defaults.defaults "PATHS" "image_folders" with
      | Some folder => [abspath env folder]
      | None => []
      end
  end.

End Config.

(* ===================================================================== *)
(** ** Further notions used in the statements *)
(* ===================================================================== *)

(** An upper-case ASCII letter, and a string that holds one. *)
Definition is_upper (c : ascii) : bool :=
  let n := nat_of_ascii c in (65 <=? n)%nat && (n <=? 90)%nat.

Fixpoint has_upper (s : string) : bool :=
  match s with
  | EmptyString => false
  | String c s' => is_upper c || has_upper s'
  end.

(** A name that holds a path separator. *)
Fixpoint has_slash (s : string) : bool :=
  match s with
  | EmptyString => false
  | String c s' => Ascii.eqb c "/" || has_slash s'
  end.

(** A string of blanks and commas only. *)
Fixpoint only_blanks_and_commas (s : string) : bool :=
  match s with
  | EmptyString => true
  | String c s' =>
      (Ascii.eqb c " " || Ascii.eqb c ",") && only_blanks_and_commas s'
  end.

(** The names and the page counts of the summary entries. *)
Definition summary_names (entries : list (string * string * nat))
    : list string :=
  map (fun e => fst (fst e)) entries.

Definition summary_pages (entries : list (string * string * nat)) : nat :=
  list_sum (map snd entries).



Definition stray_comma_generator : SmartPPTGenerator :=
  {| image_folders := ["/a"%string];
     image_area_ratio := 7 # 10;
     page_width := 15120000;
     page_height := 10692000;
     margin := 540000;
     gap := 432000;
     border_width := 12700;
     show_page_numbers := true;
     supported_formats := [".jpg"; ".png"; ""]%string;
     portrait_threshold := 9 # 10;
     square_min := 9 # 10;
     square_max := 11 # 10 |}.

(** Two configurations and an environment for the demonstration world:
    paths are absolute already and hold no variable; the first
    configuration lists two folders around a blank piece and ends its
    extensions with a comma, the second has blanks and commas for
    folders. *)
Definition demo_env : PathEnv :=
  {| expandvars := fun p => p;
     expanduser := fun p => p;
     abspath := fun p => p |}.

Definition demo_config : ConfigManager :=
  {| config := fun section key =>
       if String.eqb section "SETTINGS"
          && String.eqb key "supported_formats"
       then Some ".jpg, .png,"%string
       else if String.eqb section "PATHS" && String.eqb key "image_folders"
       then Some "/a, ,/b"%string
       else None |}.

Definition blank_config : ConfigManager :=
  {| config := fun section key =>
       if String.eqb section "PATHS" && String.eqb key "image_folders"
       then Some " , ,"%string
       else None |}.

(** What a folder adds to a run, as the pair of its pages and its summary
    entry: the entry carries the name of the folder and the number of its
    pages; a folder that does not exist has no page and the note of a
    missing folder; no page has more than three pictures, and every picture
    is a supported name of the folder's listing, joined to the folder. *)
Definition folder_block (self : SmartPPTGenerator) (world : World)
    (folder_path : string) (c : list Slide * (string * string * nat)) : Prop :=
  fst (fst (snd c)) = OsPath.basename folder_path
  /\ snd (snd c) = List.length (fst c)
  /\ (dir world folder_path = None ->
      fst c = [] /\ snd (fst (snd c)) = "文件夹不存在"%string)
  /\ (forall slide,
        In slide (fst c) -> (List.length (slide_files slide) <= 3)%nat)
  /\ (forall slide file,
        In slide (fst c) -> In file (slide_files slide) ->
        exists listing name,
          dir world folder_path = Some listing
          /\ In name listing
          /\ is_supported self name = true
          /\ file = OsPath.join folder_path name).

(* ===================================================================== *)
(** ** The numbers as the script has them: binary64 *)
(* ===================================================================== *)

(** The classifier, the per-image fit and the mixed template once more,
    with Python's numbers.  Image sizes are ints, and so are the lengths
    of the canvas, the margin, the gap and the border ([Cm(...)] and
    [Pt(...)] are subclasses of [int], in EMU); ratios, the share of the
    height and the thresholds are floats, which are IEEE 754 binary64
    numbers: [PrimFloat.float], rounded to nearest even.  An operation on
    an int and a float converts the int first; the conversion is exact
    below 2^53 in absolute value, which covers the sizes PIL reports (C
    ints) and every length in EMU, and there a comparison of a float with
    an int is the comparison of the two floats. *)
Module B64.

Import PrimFloat FloatOps SpecFloat.
Local Open Scope float_scope.

(** [float(z)], the conversion an int undergoes when it meets a float:
    the nearest binary64 number, for an int below [2 ^ 63] in size (the
    lengths of a slide in EMU are far below). *)
Definition of_Z (z : Z) : float :=
  match z with
  | Z0 => 0
  | Zpos _ => of_uint63 (Uint63.of_Z z)
  | Zneg p => - of_uint63 (Uint63.of_Z (Zpos p))
  end.

(** [a / b] on floats: a divisor equal to zero raises. *)
Definition truediv (a b : float) : result float :=
  if b =? 0 then Raise ZeroDivisionError else Ok (a / b).

(** [w / h] on ints: below [2 ^ 53], where the sizes of a decoded image
    are, the quotient of the two ints rounded once, which is the quotient
    of the two converted ints. *)
Definition int_truediv (w h : N) : result float :=
  if (h =? 0)%N then Raise ZeroDivisionError
  else Ok (of_Z (Z.of_N w) / of_Z (Z.of_N h)).

(** [min(a, b)]: the first argument unless the second is smaller. *)
Definition min (a b : float) : float := if b <? a then b else a.

(** The dict returned by [robust_read_image]. *)
Record ImageInfo : Type := {
path : string;
filename : string;
width : N;
height : N;
ratio : float;
success : bool
}.

(** A picture with its rectangle and the width of its line, when it was
    set. *)
Inductive Shape : Type :=
| Picture (file : string) (left top w h : float) (line : option Z).

Definition Slide : Type := list Shape.

(** The attributes the classifier and the templates read. *)
Record SmartPPTGenerator : Type := {
image_area_ratio : float;
page_width : Z;
page_height : Z;
margin : Z;
gap : Z;
border_width : Z;
supported_formats : list string;
portrait_threshold : float;
square_min : float;
square_max : float
}.

(** The decoder, and the sink in two steps: [add_picture_ok] tells
    whether [slide.shapes.add_picture] accepts a picture, [line_width_ok]
    whether the assignment to [pic.line.width] accepts a width; each step
    raises when it does not. *)
Record World : Type := {
image_size : string -> option (N * N);
add_picture_ok : string -> float -> float -> float -> float -> bool;
line_width_ok : Z -> bool
}.

Section Generator.

Variable self : SmartPPTGenerator.
Variable world : World.

(** [robust_read_image]. *)
Definition robust_read_image (filepath : string) : option ImageInfo :=
  match image_size world filepath with
  | None => None
  | Some (w, h) =>
      match int_truediv w h with
      | Raise _ => None
      | Ok r =>
          Some {| path := filepath;
                  filename := OsPath.basename filepath;
                  width := w;
                  height := h;
                  ratio := r;
                  success := true |}
      end
  end.

(** The [if]/[elif]/[else] of [classify_images_in_folder]. *)
Definition classify (r : float) : Bucket :=
  if r <=? portrait_threshold self then Portrait
  else if (square_min self <? r) && (r <? square_max self)
       then SquareOrLandscape
       else SquareOrLandscape.

Definition is_supported (name : string) : bool :=
  existsb (fun ext => Py.endswith (Py.lower name) ext)
          (supported_formats self).

Definition classify_step (folder_path : string)
    (acc : list ImageInfo * list ImageInfo * nat) (name : string)
    : list ImageInfo * list ImageInfo * nat :=
  let '(portraits, squares, failed) := acc in
  if is_supported name then
    let filepath := OsPath.join folder_path name in
    match robust_read_image filepath with
    | Some img_info =>
        match classify (ratio img_info) with
        | Portrait => (portraits ++ [img_info], squares, failed)
        | SquareOrLandscape => (portraits, squares ++ [img_info], failed)
        end
    | None => (portraits, squares, S failed)
    end
  else acc.

Definition classify_images_in_folder (folder_path : string)
    (listing : list string) : list ImageInfo * list ImageInfo * nat :=
  fold_left (classify_step folder_path) listing ([], [], 0%nat).

(** Lines 263-272 of [add_image_to_slide]. *)
Definition fit_rect (orig_ratio left top width height : float)
    : result (float * float * float * float) :=
  dims <- (if 1 <=? orig_ratio then
             let new_width := min width (height * orig_ratio) in
             new_height <- truediv new_width orig_ratio ;;
             Ok (new_width, new_height)
           else
             q <- truediv width orig_ratio ;;
             let new_height := min height q in
             let new_width := new_height * orig_ratio in
             Ok (new_width, new_height)) ;;
  let '(new_width, new_height) := dims in
  let left_c := left + (width - new_width) / 2 in
  let top_c := top + (height - new_height) / 2 in
  Ok (left_c, top_c, new_width, new_height).

(** [add_image_to_slide]: the picture is on the slide once [add_picture]
    has returned, also when the line width is refused afterwards and the
    [except] branch answers [False]. *)
Definition add_image_to_slide (slide : Slide) (img_info : ImageInfo)
    (left top width height : float) : Slide * bool :=
  match fit_rect (ratio img_info) left top width height with
  | Raise _ => (slide, false)
  | Ok (left_c, top_c, new_width, new_height) =>
      if add_picture_ok world (path img_info) left_c top_c new_width
           new_height
      then
        let pic := Picture (path img_info) left_c top_c new_width new_height in
        if (0 <? border_width self)%Z then
          if line_width_ok world (border_width self)
          then (slide ++ [pic (Some (border_width self))], true)
          else (slide ++ [pic None], false)
        else (slide ++ [pic None], true)
      else (slide, false)
  end.

Definition available_width : Z := page_width self - 2 * margin self.
Definition available_height : Z := page_height self - 2 * margin self.

(** The cells [create_mixed_slide] computes. *)
Definition mixed_cells (square_img portrait_img : ImageInfo)
    : result ((float * float * float * float)
              * (float * float * float * float)) :=
  let unified_height := of_Z available_height * image_area_ratio self in
  let square_width := unified_height * ratio square_img in
  let portrait_width := unified_height * ratio portrait_img in
  let total_width := square_width + of_Z (gap self) + portrait_width in
  scaled <- (if of_Z available_width <? total_width then
               scale <- truediv (of_Z available_width) total_width ;;
               let square_width := square_width * scale in
               let portrait_width := portrait_width * scale in
               let unified_height := unified_height * scale in
               let total_width :=
                 square_width + of_Z (gap self) + portrait_width in
               Ok (square_width, portrait_width, unified_height, total_width)
             else
               Ok (square_width, portrait_width, unified_height, total_width)) ;;
  let '(square_width, portrait_width, unified_height, total_width) := scaled in
  let start_x :=
    of_Z (margin self) + (of_Z available_width - total_width) / 2 in
  let start_y :=
    of_Z (margin self) + (of_Z available_height - unified_height) / 2 in
  Ok ((start_x, start_y, square_width, unified_height),
      (start_x + square_width + of_Z (gap self), start_y, portrait_width,
       unified_height)).

Definition create_mixed_slide (slide : Slide)
    (square_img portrait_img : ImageInfo) : result Slide :=
  cells <- mixed_cells square_img portrait_img ;;
  let '((x1, y1, w1, h1), (x2, y2, w2, h2)) := cells in
  let slide := fst (add_image_to_slide slide square_img x1 y1 w1 h1) in
  let slide := fst (add_image_to_slide slide portrait_img x2 y2 w2 h2) in
  Ok slide.

(** *** Notions used in the statements *)

(** The size [fit_rect] computes, in closed form. *)
Definition fit_width (r width height : float) : float :=
  if 1 <=? r then min width (height * r)
  else min height (width / r) * r.

Definition fit_height (r width height : float) : float :=
  if 1 <=? r then min width (height * r) / r
  else min height (width / r).

(** The line of a picture whose border was set without an exception. *)
Definition line : option Z :=
  if (0 <? border_width self)%Z then Some (border_width self) else None.

(** What the border step answers. *)
Definition border_ok : bool :=
  negb (0 <? border_width self)%Z || line_width_ok world (border_width self).

Definition is_portrait (img : ImageInfo) : bool :=
  ratio img <=? portrait_threshold self.

Definition inspected (folder_path : string) (listing : list string)
    : list ImageInfo :=
  flat_map (fun name =>
              if is_supported name then
                match robust_read_image (OsPath.join folder_path name) with
                | Some img_info => [img_info]
                | None => []
                end
              else []) listing.

Definition unreadable (folder_path : string) (listing : list string)
    : list string :=
  filter (fun name =>
            is_supported name
            && match robust_read_image (OsPath.join folder_path name) with
               | Some _ => false
               | None => true
               end) listing.

End Generator.


(** The lengths of a canvas that convert to binary64 without rounding,
    so that comparing or combining one of them with a float is comparing
    or combining the converted one. *)
Definition in_range (self : SmartPPTGenerator) : bool :=
  (Z.abs (available_width self) <? 2 ^ 53)%Z
  && (Z.abs (available_height self) <? 2 ^ 53)%Z
  && (Z.abs (margin self) <? 2 ^ 53)%Z
  && (Z.abs (gap self) <? 2 ^ 53)%Z.

(** The defaults of [ConfigManager] on an A3 canvas. *)
Definition default_generator : SmartPPTGenerator :=
  {| image_area_ratio := 7 / 10;
     page_width := 15120000;
     page_height := 10692000;
     margin := 540000;
     gap := 432000;
     border_width := 12700;
     supported_formats :=
       [".jpg"; ".jpeg"; ".png"; ".bmp"; ".gif"; ".tiff"; ".tif"; ".webp";
        ".jfif"]%string;
     portrait_threshold := 9 / 10;
     square_min := 9 / 10;
     square_max := 11 / 10 |}.

(** The canvas of a configuration with [margin = 22], [gap = 0] and
    [image_area_ratio = 0]: the two margins are wider than the A3 page. *)
Definition narrow_generator : SmartPPTGenerator :=
  {| image_area_ratio := 0;
     page_width := 15120000;
     page_height := 10692000;
     margin := 7920000;
     gap := 0;
     border_width := 12700;
     supported_formats :=
       [".jpg"; ".jpeg"; ".png"; ".bmp"; ".gif"; ".tiff"; ".tif"; ".webp";
        ".jfif"]%string;
     portrait_threshold := 9 / 10;
     square_min := 9 / 10;
     square_max := 11 / 10 |}.

(** A folder of seven images, named by their sizes, a decoder for it and a
    sink that accepts every picture and the line widths of DrawingML (up
    to 20116800 EMU). *)
Definition gallery : World :=
  {| image_size := fun p =>
       if String.eqb p "/g/1600x900.jpg" then Some (1600, 900)%N
       else if String.eqb p "/g/1365x2048.jpg" then Some (1365, 2048)%N
       else if String.eqb p "/g/900x1000.jpg" then Some (900, 1000)%N
       else if String.eqb p "/g/3000x1000.jpg" then Some (3000, 1000)%N
       else if String.eqb p "/g/1000x1000.jpg" then Some (1000, 1000)%N
       else if String.eqb p "/g/600x1200.jpg" then Some (600, 1200)%N
       else if String.eqb p "/g/1000x3000.jpg" then Some (1000, 3000)%N
       else None;
     add_picture_ok := fun _ _ _ _ _ => true;
     line_width_ok := fun w => (w <=? 20116800)%Z |}.

End B64.

(* ===================================================================== *)
(** ** Comparisons, division and lists *)
(* ===================================================================== *)

#[local] Hint Constructors subseq : core.

Lemma lt_true x y : Py.lt x y = true <-> x < y.
Proof.
  unfold Py.lt. rewrite negb_true_iff. split.
  - intros H. apply Qnot_le_lt. intros Hle.
    apply Qle_bool_iff in Hle. congruence.
  - intros H. destruct (Qle_bool y x) eqn:E; [| reflexivity].
    apply Qle_bool_iff in E. exfalso. exact (Qlt_not_le _ _ H E).
Qed.

Lemma pos_nonzero r : 0 < r -> ~ r == 0.
Proof. intros H E. rewrite E in H. discriminate. Qed.

Lemma truediv_ok a b : ~ b == 0 -> Py.truediv a b = Ok (a / b).
Proof.
  intros H. unfold Py.truediv.
  destruct (Qeq_bool b 0) eqn:E; [| reflexivity].
  apply Qeq_bool_iff in E. contradiction.
Qed.

Lemma truediv_inv a b q : Py.truediv a b = Ok q -> ~ b == 0 /\ q = a / b.
Proof.
  unfold Py.truediv. destruct (Qeq_bool b 0) eqn:E; [discriminate |].
  intros H. injection H as <-. split; [| reflexivity].
  intros Hb. apply Qeq_bool_iff in Hb. congruence.
Qed.

Lemma ceil_nonneg x : 0 <= x -> (0 <= Py.ceil x)%Z.
Proof.
  intros H. unfold Py.ceil. change 0%Z with (Qceiling 0).
  apply Qceiling_resp_le. exact H.
Qed.

Lemma thirds_nonneg z : (0 <= z)%Z -> 0 <= inject_Z z / 3.
Proof.
  intros H. unfold Qdiv. apply Qmult_le_0_compat; [| discriminate].
  change 0 with (inject_Z 0). rewrite <- Zle_Qle. exact H.
Qed.

Lemma subseq_refl {A} (l : list A) : subseq l l.
Proof. induction l; auto. Qed.

Lemma subseq_nil_l {A} (l : list A) : subseq [] l.
Proof. induction l; auto. Qed.

Lemma subseq_app {A} (l1 l2 k1 k2 : list A) :
  subseq l1 l2 -> subseq k1 k2 -> subseq (l1 ++ k1) (l2 ++ k2).
Proof. induction 1; intros Hk; simpl; auto. Qed.

Lemma subseq_In {A} (l1 l2 : list A) x : subseq l1 l2 -> In x l1 -> In x l2.
Proof.
  induction 1; simpl; intros Hin; auto.
  destruct Hin; auto.
Qed.

Lemma subseq_NoDup {A} (l1 l2 : list A) : subseq l1 l2 -> NoDup l2 -> NoDup l1.
Proof.
  induction 1; intros Hnd; auto.
  - inversion Hnd; auto.
  - inversion Hnd; subst. constructor; auto.
    intros Hin. eauto using subseq_In.
Qed.

Lemma subseq_firstn {A} n (l : list A) : subseq (firstn n l) l.
Proof.
  revert n. induction l; intros [| n]; simpl; auto using subseq_nil_l.
Qed.

Lemma subseq_map {A B} (f : A -> B) l1 l2 :
  subseq l1 l2 -> subseq (map f l1) (map f l2).
Proof. induction 1; simpl; auto. Qed.

Lemma NoDup_app_disjoint {A} (l1 l2 : list A) x :
  NoDup (l1 ++ l2) -> In x l1 -> In x l2 -> False.
Proof.
  induction l1 as [| a l1 IH]; simpl; intros Hnd H1 H2; [contradiction |].
  inversion Hnd as [| ? ? Hnotin Hnd']; subst.
  destruct H1 as [-> | H1].
  - apply Hnotin. apply in_or_app. right. exact H2.
  - exact (IH Hnd' H1 H2).
Qed.

Lemma filter_split_perm {A} (f : A -> bool) l :
  Permutation (filter f l ++ filter (fun x => negb (f x)) l) l.
Proof.
  induction l as [| a l IH]; simpl; [constructor |].
  destruct (f a); simpl.
  - constructor. exact IH.
  - apply Permutation_sym, Permutation_cons_app, Permutation_sym, IH.
Qed.

Lemma enumerate_snd {A} (l : list A) n :
  map snd (combine (seq n (List.length l)) l) = l.
Proof.
  revert n. induction l as [| a l IH]; intros n; simpl;
    [reflexivity | f_equal; apply IH].
Qed.

Lemma nth_error_skipn_cons {A} (l : list A) i x :
  nth_error l i = Some x -> skipn i l = x :: skipn (S i) l.
Proof.
  revert i. induction l as [| a l IH]; intros [| i]; simpl; try discriminate.
  - intros H. injection H as ->. reflexivity.
  - intros H. rewrite (IH i H). reflexivity.
Qed.

Lemma slice_three {A} (l : list A) start :
  Py.slice l start (Nat.min (start + 3) (List.length l))
  = firstn 3 (skipn start l).
Proof.
  unfold Py.slice.
  destruct (Nat.le_gt_cases (start + 3) (List.length l)) as [H | H].
  - rewrite Nat.min_l by exact H. f_equal. lia.
  - rewrite Nat.min_r by lia.
    rewrite !firstn_all2; [reflexivity | |]; rewrite length_skipn; lia.
Qed.

Lemma append_inj_r (a b1 b2 : string) :
  (a ++ b1)%string = (a ++ b2)%string -> b1 = b2.
Proof.
  induction a as [| c a IH]; simpl; intros H; [exact H |].
  injection H as H. exact (IH H).
Qed.

Lemma join_inj folder_path name1 name2 :
  OsPath.join folder_path name1 = OsPath.join folder_path name2 ->
  name1 = name2.
Proof.
  unfold OsPath.join. destruct (_ || _); intros H.
  - exact (append_inj_r _ _ _ H).
  - apply append_inj_r in H. exact (append_inj_r _ _ _ H).
Qed.

Lemma paired_paths_perm squares portraits :
  Permutation
    (paired_paths squares portraits
     ++ map path (skipn (Nat.min (List.length squares) (List.length portraits))
                    portraits))
    (map path (firstn (Nat.min (List.length squares) (List.length portraits))
                 squares)
     ++ map path portraits).
Proof.
  revert portraits.
  induction squares as [| sq squares IH]; intros [| po portraits];
    simpl; try apply Permutation_refl.
  constructor.
  apply (Permutation_cons_app _ _ (path po)). apply IH.
Qed.

Lemma slide_files_app s1 s2 :
  slide_files (s1 ++ s2) = slide_files s1 ++ slide_files s2.
Proof. apply flat_map_app. Qed.

Lemma slide_texts_app s1 s2 :
  slide_texts (s1 ++ s2) = slide_texts s1 ++ slide_texts s2.
Proof. apply flat_map_app. Qed.

Lemma extends_refl v : extends v v [] 0.
Proof.
  unfold extends. simpl. rewrite app_nil_r, !Nat.add_0_r. auto 7.
Qed.

Lemma extends_trans v1 v2 v3 new1 new2 adv1 adv2 :
  extends v1 v2 new1 adv1 -> extends v2 v3 new2 adv2 ->
  extends v1 v3 (new1 ++ new2) (adv1 + adv2).
Proof.
  unfold extends.
  intros (Hp1 & Ht1 & Hs1 & Hf1 & Hq1 & Hi1) (Hp2 & Ht2 & Hs2 & Hf2 & Hq2 & Hi2).
  rewrite Hp2, Hp1, Ht2, Ht1, Hs2, Hs1, Hf2, Hf1, Hq2, Hq1, Hi2, Hi1.
  rewrite length_app, <- app_assoc. repeat split; lia.
Qed.

(** One more page: [v] extended by [new], then by a page and [adv]. *)
Lemma extends_cons v v1 v' slide new adv n :
  prs_slides v1 = prs_slides v ++ [slide] ->
  total_slide_count v1 = S (total_slide_count v) ->
  folder_summary v1 = folder_summary v ->
  folder_slide_count v1 = S (folder_slide_count v) ->
  square_idx v1 = (square_idx v + adv)%nat ->
  portrait_idx v1 = (portrait_idx v + adv)%nat ->
  extends v1 v' new n ->
  extends v v' (slide :: new) (adv + n).
Proof.
  intros Hp Ht Hs Hf Hq Hi Hext.
  apply (extends_trans v v1 v' [slide] new adv n); [| exact Hext].
  unfold extends. simpl. rewrite Hp, Ht, Hs, Hf, Hq, Hi.
  repeat split; lia.
Qed.

Lemma status_note_text squares portraits v :
  square_idx v = Nat.min (List.length squares) (List.length portraits) ->
  status_note squares portraits v
  = note_text (List.length squares) (List.length portraits).
Proof.
  intros Hidx. unfold status_note, note_text. rewrite Hidx.
  do 3 f_equal.
  destruct (Nat.ltb_spec (List.length portraits) (List.length squares)).
  - rewrite Nat.min_r by lia.
    replace (_ >? 0)%Z with true by (symmetry; apply Z.gtb_lt; lia).
    replace (Z.to_nat (Z.of_nat (List.length squares)
                       - Z.of_nat (List.length portraits)))
      with (List.length squares - List.length portraits)%nat by lia.
    reflexivity.
  - rewrite Nat.min_l by lia.
    replace (_ >? 0)%Z with false; [reflexivity |].
    symmetry. rewrite Z.gtb_ltb. apply Z.ltb_ge. lia.
Qed.

Lemma page_count_formula (squares portraits : list ImageInfo) :
  Z.of_nat (Nat.min (List.length squares) (List.length portraits)
            + portrait_groups portraits
                (Nat.min (List.length squares) (List.length portraits)))
  = spec_page_count (Z.of_nat (List.length squares))
                    (Z.of_nat (List.length portraits)).
Proof.
  unfold portrait_groups, spec_page_count.
  rewrite Nat2Z.inj_add, Nat2Z.inj_min. f_equal.
  set (rem := (Z.of_nat (List.length portraits)
               - Z.min (Z.of_nat (List.length squares))
                       (Z.of_nat (List.length portraits)))%Z).
  assert (Hrem : (0 <= rem)%Z) by (unfold rem; lia).
  rewrite Z.max_r by exact Hrem.
  destruct (rem >? 0)%Z eqn:E.
  - rewrite Z2Nat.id; [reflexivity |].
    apply ceil_nonneg, thirds_nonneg, Hrem.
  - rewrite Z.gtb_ltb in E. apply Z.ltb_ge in E.
    replace rem with 0%Z by lia. reflexivity.
Qed.

(* ===================================================================== *)
(** ** The classifier *)
(* ===================================================================== *)

Section Classifier.

Variable self : SmartPPTGenerator.
Variable world : World.

Lemma robust_read_image_inv filepath img :
  robust_read_image world filepath = Some img ->
  path img = filepath
  /\ image_size world filepath = Some (width img, height img)
  /\ height img <> 0%N
  /\ ratio img
     = inject_Z (Z.of_N (width img)) / inject_Z (Z.of_N (height img)).
Proof.
  unfold robust_read_image.
  destruct (image_size world filepath) as [[w h] |]; [| discriminate].
  destruct (Py.truediv _ _) as [r |] eqn:Hdiv; [| discriminate].
  intros H. injection H as <-. simpl.
  apply truediv_inv in Hdiv. destruct Hdiv as [Hh ->].
  repeat split; try reflexivity.
  intros ->. apply Hh. reflexivity.
Qed.

Lemma classify_is_portrait img :
  classify self (ratio img)
  = if is_portrait self img then Portrait else SquareOrLandscape.
Proof.
  unfold classify, is_portrait.
  destruct (Py.le _ _); [reflexivity |]. destruct (_ && _); reflexivity.
Qed.

Lemma classify_fold folder_path listing portraits squares failed :
  fold_left (classify_step self world folder_path) listing
            (portraits, squares, failed)
  = (portraits
       ++ filter (is_portrait self) (inspected self world folder_path listing),
     squares
       ++ filter (fun i => negb (is_portrait self i))
                 (inspected self world folder_path listing),
     (failed
      + List.length (unreadable self world folder_path listing))%nat).
Proof.
  revert portraits squares failed.
  induction listing as [| name rest IH]; intros portraits squares failed.
  - simpl. rewrite !app_nil_r, Nat.add_0_r. reflexivity.
  - cbn [fold_left]. unfold inspected, unreadable.
    cbn [flat_map filter].
    fold (inspected self world folder_path rest).
    fold (unreadable self world folder_path rest).
    unfold classify_step at 2.
    destruct (is_supported self name); cbn [andb].
    + destruct (robust_read_image world _) as [img |].
      * rewrite classify_is_portrait. cbn [app filter].
        destruct (is_portrait self img); cbn [negb]; rewrite IH;
          rewrite <- app_assoc; reflexivity.
      * rewrite IH. cbn [app List.length]. f_equal. lia.
    + apply IH.
Qed.

Lemma classify_images_in_folder_eq folder_path listing :
  classify_images_in_folder self world folder_path listing
  = (filter (is_portrait self) (inspected self world folder_path listing),
     filter (fun i => negb (is_portrait self i))
            (inspected self world folder_path listing),
     List.length (unreadable self world folder_path listing)).
Proof.
  unfold classify_images_in_folder. rewrite classify_fold. reflexivity.
Qed.

Lemma inspected_inv folder_path listing img :
  In img (inspected self world folder_path listing) ->
  exists name,
    In name listing /\ is_supported self name = true
    /\ robust_read_image world (OsPath.join folder_path name) = Some img.
Proof.
  unfold inspected. rewrite in_flat_map. intros (name & Hin & Himg).
  exists name. destruct (is_supported self name); [| contradiction].
  destruct (robust_read_image world _) as [i |]; [| contradiction].
  destruct Himg as [-> | []]. auto.
Qed.

Lemma inspected_paths folder_path listing :
  subseq (map path (inspected self world folder_path listing))
         (map (OsPath.join folder_path) listing).
Proof.
  induction listing as [| name rest IH]; simpl; [constructor |].
  destruct (is_supported self name); simpl; [| auto using subseq_skip].
  destruct (robust_read_image world _) as [img |] eqn:Hread; simpl.
  - apply robust_read_image_inv in Hread. destruct Hread as [-> _].
    apply subseq_keep. exact IH.
  - apply subseq_skip. exact IH.
Qed.

Lemma buckets_distinct_paths folder_path listing portraits squares failed :
  NoDup listing ->
  classify_images_in_folder self world folder_path listing
  = (portraits, squares, failed) ->
  NoDup (map path squares ++ map path portraits).
Proof.
  intros Hnd Hcls. rewrite classify_images_in_folder_eq in Hcls.
  injection Hcls as <- <- _.
  set (imgs := inspected self world folder_path listing).
  assert (Himgs : NoDup (map path imgs)).
  { apply (subseq_NoDup _ _ (inspected_paths folder_path listing)).
    apply Finite.Injective_map_NoDup; [| exact Hnd].
    intros a b. apply join_inj. }
  rewrite <- map_app.
  apply (Permutation_NoDup (l := map path imgs)); [| exact Himgs].
  apply Permutation_map. apply Permutation_sym.
  eapply Permutation_trans; [apply Permutation_app_comm |].
  apply filter_split_perm.
Qed.

End Classifier.

(* ===================================================================== *)
(** ** The per-image fit *)
(* ===================================================================== *)

Lemma fit_rect_eq r left top width height :
  ~ r == 0 ->
  fit_rect r left top width height
  = Ok (left + (width - fit_width r width height) / 2,
        top + (height - fit_height r width height) / 2,
        fit_width r width height,
        fit_height r width height).
Proof.
  intros Hr. unfold fit_rect, fit_width, fit_height.
  destruct (Py.ge r 1); rewrite truediv_ok by exact Hr; reflexivity.
Qed.

(* ===================================================================== *)
(** ** The two templates *)
(* ===================================================================== *)

Section Templates.

Variable self : SmartPPTGenerator.
Variable world : World.

Lemma add_image_to_slide_cases s img left top width height :
  add_image_to_slide self world s img left top width height = (s, false)
  \/ exists lc tc nw nh,
       fit_rect (ratio img) left top width height = Ok (lc, tc, nw, nh)
       /\ add_picture_ok world (path img) lc tc nw nh = true
       /\ add_image_to_slide self world s img left top width height
          = (s ++ [Picture (path img) lc tc nw nh (border self)], true).
Proof.
  unfold add_image_to_slide.
  destruct (fit_rect _ _ _ _ _) as [[[[lc tc] nw] nh] | e]; simpl;
    [| left; reflexivity].
  unfold add_picture.
  destruct (add_picture_ok world _ _ _ _ _) eqn:Hok; [| left; reflexivity].
  right. exists lc, tc, nw, nh. auto.
Qed.

Lemma add_image_to_slide_placed s img left top width height :
  ~ ratio img == 0 ->
  (forall f l t w h, add_picture_ok world f l t w h = true) ->
  add_image_to_slide self world s img left top width height
  = (s ++ [Picture (path img)
             (left + (width - fit_width (ratio img) width height) / 2)
             (top + (height - fit_height (ratio img) width height) / 2)
             (fit_width (ratio img) width height)
             (fit_height (ratio img) width height) (border self)], true).
Proof.
  intros Hr Hsink. unfold add_image_to_slide.
  rewrite fit_rect_eq by exact Hr. simpl.
  unfold add_picture. rewrite Hsink. reflexivity.
Qed.

Lemma add_image_to_slide_files s img left top width height :
  exists placed,
    subseq placed [path img]
    /\ slide_files (fst (add_image_to_slide self world s img left top width
                           height))
       = slide_files s ++ placed
    /\ slide_texts (fst (add_image_to_slide self world s img left top width
                           height))
       = slide_texts s.
Proof.
  destruct (add_image_to_slide_cases s img left top width height)
    as [-> | (lc & tc & nw & nh & _ & _ & ->)].
  - exists []. simpl. rewrite app_nil_r. auto.
  - exists [path img]. simpl.
    rewrite slide_files_app, slide_texts_app. simpl.
    rewrite app_nil_r. auto using subseq_refl.
Qed.

Lemma scale_defined total_width :
  0 <= available_width self ->
  Py.gt total_width (available_width self) = true ->
  ~ total_width == 0.
Proof.
  intros Havail Hgt E. apply lt_true in Hgt.
  rewrite E in Hgt. exact (Qlt_not_le _ _ Hgt Havail).
Qed.

Lemma mixed_cells_total square_img portrait_img :
  0 <= available_width self ->
  exists cells, mixed_cells self square_img portrait_img = Ok cells.
Proof.
  intros Havail. unfold mixed_cells.
  destruct (Py.gt _ _) eqn:Hgt.
  - rewrite truediv_ok by (eapply scale_defined; eassumption).
    simpl. eauto.
  - simpl. eauto.
Qed.

Lemma create_mixed_slide_total s square_img portrait_img :
  0 <= available_width self ->
  exists s', create_mixed_slide self world s square_img portrait_img = Ok s'.
Proof.
  intros Havail. unfold create_mixed_slide.
  destruct (mixed_cells_total square_img portrait_img Havail)
    as [[[[[x1 y1] w1] h1] [[[x2 y2] w2] h2]] ->].
  simpl. eauto.
Qed.

Lemma create_mixed_slide_files s square_img portrait_img s' :
  create_mixed_slide self world s square_img portrait_img = Ok s' ->
  exists placed,
    subseq placed [path square_img; path portrait_img]
    /\ slide_files s' = slide_files s ++ placed
    /\ slide_texts s' = slide_texts s.
Proof.
  unfold create_mixed_slide.
  destruct (mixed_cells self _ _)
    as [[[[[x1 y1] w1] h1] [[[x2 y2] w2] h2]] | e]; simpl; [| discriminate].
  intros H. injection H as <-.
  destruct (add_image_to_slide_files s square_img x1 y1 w1 h1)
    as (p1 & Hp1 & Hf1 & Ht1).
  set (s1 := fst (add_image_to_slide self world s square_img x1 y1 w1 h1)) in *.
  destruct (add_image_to_slide_files s1 portrait_img x2 y2 w2 h2)
    as (p2 & Hp2 & Hf2 & Ht2).
  exists (p1 ++ p2). rewrite Hf2, Hf1, Ht2, Ht1, app_assoc.
  split; [| auto].
  change [path square_img; path portrait_img]
    with ([path square_img] ++ [path portrait_img]).
  apply subseq_app; assumption.
Qed.

Lemma create_mixed_slide_all_placed s square_img portrait_img s' :
  ~ ratio square_img == 0 -> ~ ratio portrait_img == 0 ->
  (forall f l t w h, add_picture_ok world f l t w h = true) ->
  create_mixed_slide self world s square_img portrait_img = Ok s' ->
  slide_files s' = slide_files s ++ [path square_img; path portrait_img].
Proof.
  intros Hr1 Hr2 Hsink. unfold create_mixed_slide.
  destruct (mixed_cells self _ _)
    as [[[[[x1 y1] w1] h1] [[[x2 y2] w2] h2]] | e]; simpl; [| discriminate].
  intros H. injection H as <-.
  rewrite (add_image_to_slide_placed s _ x1 y1 w1 h1 Hr1 Hsink).
  cbn [fst].
  rewrite (add_image_to_slide_placed _ _ x2 y2 w2 h2 Hr2 Hsink).
  cbn [fst]. rewrite !slide_files_app. simpl. rewrite <- app_assoc.
  reflexivity.
Qed.

Lemma portrait_row_total portrait_imgs :
  0 <= available_width self ->
  exists row, portrait_row self portrait_imgs = Ok row.
Proof.
  intros Havail. unfold portrait_row.
  destruct (Py.gt _ _) eqn:Hgt.
  - rewrite truediv_ok by (eapply scale_defined; eassumption).
    simpl. eauto.
  - simpl. eauto.
Qed.

Lemma portrait_row_widths portrait_imgs image_widths unified_height sx sy :
  portrait_row self portrait_imgs = Ok (image_widths, unified_height, sx, sy) ->
  image_widths = map (fun img => unified_height * ratio img) portrait_imgs.
Proof.
  unfold portrait_row. destruct (Py.gt _ _).
  - destruct (Py.truediv _ _) as [scale | e]; simpl; [| discriminate].
    intros H. injection H as <- <- <- <-. reflexivity.
  - simpl. intros H. injection H as <- <- <- <-. reflexivity.
Qed.

Lemma portrait_place_loop image_widths start_y unified_height items :
  forall slide current_x,
    (forall i img, In (i, img) items ->
                   (i < List.length image_widths)%nat) ->
    exists st placed,
      Py.for_each (portrait_place self world image_widths start_y
                     unified_height) items (slide, current_x) = Ok st
      /\ subseq placed (map (fun it => path (snd it)) items)
      /\ slide_files (fst st) = slide_files slide ++ placed
      /\ slide_texts (fst st) = slide_texts slide.
Proof.
  induction items as [| [i img] rest IH]; intros slide current_x Hin.
  - exists (slide, current_x), []. simpl. rewrite app_nil_r. auto.
  - assert (Hi : (i < List.length image_widths)%nat)
      by (apply (Hin i img); left; reflexivity).
    destruct (nth_error image_widths i) as [w |] eqn:Hw;
      [| apply nth_error_None in Hw; lia].
    assert (Hstep :
      portrait_place self world image_widths start_y unified_height
        (slide, current_x) (i, img)
      = Ok (fst (add_image_to_slide self world slide img current_x start_y
                   w unified_height), current_x + w + gap self)).
    { unfold portrait_place, Py.getitem. rewrite Hw. reflexivity. }
    cbn [Py.for_each]. rewrite Hstep.
    destruct (add_image_to_slide_files slide img current_x start_y
                w unified_height) as (p1 & Hp1 & Hf1 & Ht1).
    set (s1 := fst (add_image_to_slide self world slide img current_x start_y
                      w unified_height)) in *.
    destruct (IH s1 (current_x + w + gap self)) as (st & p2 & Hst & Hp2 & Hf2 & Ht2).
    { intros j img' Hj. apply (Hin j img'). right. exact Hj. }
    exists st, (p1 ++ p2). rewrite Hst, Hf2, Hf1, Ht2, Ht1, app_assoc.
    repeat split; auto.
    change (map (fun it => path (snd it)) ((i, img) :: rest))
      with ([path img] ++ map (fun it : nat * ImageInfo => path (snd it)) rest).
    apply subseq_app; assumption.
Qed.

(** Once the row is computed, the slide is made. *)
Lemma create_portrait_slide_of_row s portrait_imgs row :
  portrait_row self portrait_imgs = Ok row ->
  exists s' placed,
    create_portrait_slide self world s portrait_imgs = Ok s'
    /\ subseq placed (map path portrait_imgs)
    /\ slide_files s' = slide_files s ++ placed
    /\ slide_texts s' = slide_texts s.
Proof.
  destruct row as [[[ws uh] sx] sy]. intros Hrow.
  unfold create_portrait_slide. rewrite Hrow. cbn [Py.bind].
  destruct (portrait_place_loop ws sy uh
              (combine (seq 0 (List.length portrait_imgs)) portrait_imgs)
              s sx) as (st & placed & Hst & Hsub & Hf & Ht).
  { intros i img Hin. apply in_combine_l in Hin. apply in_seq in Hin.
    rewrite (portrait_row_widths _ _ _ _ _ Hrow), length_map. lia. }
  rewrite Hst. cbn [Py.bind]. exists (fst st), placed.
  repeat split; auto.
  rewrite <- (map_map snd path), enumerate_snd in Hsub. exact Hsub.
Qed.

Lemma create_portrait_slide_total s portrait_imgs :
  0 <= available_width self ->
  exists s', create_portrait_slide self world s portrait_imgs = Ok s'.
Proof.
  intros Havail.
  destruct (portrait_row_total portrait_imgs Havail) as [row Hrow].
  destruct (create_portrait_slide_of_row s portrait_imgs row Hrow)
    as (s' & _ & Hs & _).
  eauto.
Qed.

Lemma create_portrait_slide_files s portrait_imgs s' :
  create_portrait_slide self world s portrait_imgs = Ok s' ->
  exists placed,
    subseq placed (map path portrait_imgs)
    /\ slide_files s' = slide_files s ++ placed
    /\ slide_texts s' = slide_texts s.
Proof.
  intros Hs.
  destruct (portrait_row self portrait_imgs) as [row | e] eqn:Hrow.
  - destruct (create_portrait_slide_of_row s portrait_imgs row Hrow)
      as (s'' & placed & Hs'' & Hfacts).
    rewrite Hs in Hs''. injection Hs'' as <-. eauto.
  - unfold create_portrait_slide in Hs. rewrite Hrow in Hs. discriminate.
Qed.

Lemma add_page_number_files s n :
  slide_files (add_page_number self s n) = slide_files s.
Proof.
  unfold add_page_number. destruct (show_page_numbers self); simpl;
    [| reflexivity].
  rewrite slide_files_app. simpl. apply app_nil_r.
Qed.

Lemma add_page_number_texts s n :
  slide_texts (add_page_number self s n) = slide_texts s ++ label self n.
Proof.
  unfold add_page_number, label. destruct (show_page_numbers self); simpl.
  - rewrite slide_texts_app. reflexivity.
  - symmetry. apply app_nil_r.
Qed.

(** A template raises only on a canvas narrower than its margins. *)
Lemma mixed_raise_canvas s square_img portrait_img e :
  create_mixed_slide self world s square_img portrait_img = Raise e ->
  available_width self < 0.
Proof.
  intros Hraise.
  destruct (Qlt_le_dec (available_width self) 0) as [H | H]; [exact H |].
  destruct (create_mixed_slide_total s square_img portrait_img H) as [s' Hs].
  congruence.
Qed.

Lemma portrait_raise_canvas s portrait_imgs e :
  create_portrait_slide self world s portrait_imgs = Raise e ->
  available_width self < 0.
Proof.
  intros Hraise.
  destruct (Qlt_le_dec (available_width self) 0) as [H | H]; [exact H |].
  destruct (create_portrait_slide_total s portrait_imgs H) as [s' Hs].
  congruence.
Qed.

Lemma returns_ok {A} (r : result A) (P : A -> Prop) :
  returns self r P -> 0 <= available_width self -> exists a, r = Ok a.
Proof.
  destruct r as [a | e]; simpl; intros H Havail; [eauto |].
  exfalso. exact (Qlt_not_le _ _ H Havail).
Qed.

Lemma returns_inv {A} (r : result A) (P : A -> Prop) a :
  returns self r P -> r = Ok a -> P a.
Proof. intros H ->. exact H. Qed.

End Templates.

(* ===================================================================== *)
(** ** The loops of [generate_ppt] *)
(* ===================================================================== *)

Section Loops.

Variable self : SmartPPTGenerator.
Variable world : World.

Lemma mixed_loop_step squares portraits v :
  mixed_loop self world squares portraits v
  = if mixed_cond squares portraits v
    then match mixed_body self world squares portraits v with
         | Ok v' => mixed_loop self world squares portraits v'
         | Raise e => Raise e
         end
    else Ok v.
Proof.
  funelim (mixed_loop self world squares portraits v);
    try match goal with
        | H : mixed_cond _ _ _ = _ |- _ => rewrite H
        end;
    try match goal with
        | H : mixed_body _ _ _ _ _ = _ |- _ => rewrite H
        end; reflexivity.
Qed.

Lemma mixed_loop_spec n squares portraits :
  forall v,
    square_idx v = portrait_idx v ->
    (square_idx v + n
     = Nat.min (List.length squares) (List.length portraits))%nat ->
    returns self (mixed_loop self world squares portraits v)
      (fun v' =>
         exists new,
           extends v v' new n
           /\ List.length new = n
           /\ mixed_pages self world (S (total_slide_count v))
                (skipn (square_idx v) squares)
                (skipn (portrait_idx v) portraits) new).
Proof.
  induction n as [| n IH]; intros v Hidx Hn; rewrite mixed_loop_step.
  - assert (Hcond : mixed_cond squares portraits v = false).
    { unfold mixed_cond. rewrite <- Hidx. apply andb_false_iff.
      rewrite !Nat.ltb_ge. lia. }
    rewrite Hcond. exists [].
    split; [apply extends_refl |]. split; [reflexivity |].
    rewrite <- Hidx.
    destruct (Nat.le_ge_cases (List.length squares) (List.length portraits)).
    + rewrite (skipn_all2 squares) by lia. reflexivity.
    + rewrite (skipn_all2 portraits) by lia.
      destruct (skipn _ squares); reflexivity.
  - assert (Hcond : mixed_cond squares portraits v = true).
    { unfold mixed_cond. rewrite <- Hidx. apply andb_true_iff.
      rewrite !Nat.ltb_lt. lia. }
    rewrite Hcond.
    destruct (nth_error squares (square_idx v)) as [sq |] eqn:Hsq;
      [| apply nth_error_None in Hsq; lia].
    destruct (nth_error portraits (portrait_idx v)) as [po |] eqn:Hpo;
      [| apply nth_error_None in Hpo; lia].
    unfold mixed_body, Py.getitem. rewrite Hsq, Hpo. cbn [Py.bind].
    destruct (create_mixed_slide self world [] sq po) as [s | e] eqn:Hs;
      cbn [Py.bind]; [| exact (mixed_raise_canvas self world _ _ _ _ Hs)].
    match goal with
    | |- context [mixed_loop _ _ _ _ ?v1] =>
        set (v1' := v1); specialize (IH v1')
    end.
    destruct (mixed_loop self world squares portraits v1') as [v' | e];
      [| apply IH; subst v1'; simpl; lia].
    destruct IH as (new & Hext & Hlen & Hpages);
      [subst v1'; simpl; lia | subst v1'; simpl; lia |].
    exists (add_page_number self s (S (total_slide_count v)) :: new).
    split; [| split].
    + apply (extends_cons v v1' v' _ new 1 n); subst v1'; simpl;
        try reflexivity; try lia. exact Hext.
    + simpl. lia.
    + rewrite (nth_error_skipn_cons _ _ _ Hsq), (nth_error_skipn_cons _ _ _ Hpo).
      simpl. split; [eauto |].
      subst v1'. simpl in Hpages. rewrite <- Hidx in Hpages |- *. exact Hpages.
Qed.

Lemma group_loop_spec portraits groups :
  forall first v,
    returns self
      (Py.for_each (group_body self world portraits) (seq first groups) v)
      (fun v' =>
         exists new,
           extends v v' new 0
           /\ List.length new = groups
           /\ row_pages self world (S (total_slide_count v))
                (skipn (portrait_idx v + first * 3) portraits) new).
Proof.
  induction groups as [| groups IH]; intros first v.
  - exists []. simpl. auto using extends_refl.
  - cbn [seq Py.for_each]. unfold group_body at 1.
    rewrite slice_three.
    destruct (create_portrait_slide self world []
                (firstn 3 (skipn (portrait_idx v + first * 3) portraits)))
      as [s | e] eqn:Hs; cbn [Py.bind];
      [| exact (portrait_raise_canvas self world _ _ _ Hs)].
    match goal with
    | |- context [Py.for_each _ _ ?v1] =>
        set (v1' := v1); specialize (IH (S first) v1')
    end.
    destruct (Py.for_each _ _ v1') as [v' | e]; [| exact IH].
    destruct IH as (new & Hext & Hlen & Hpages).
    exists (add_page_number self s (S (total_slide_count v)) :: new).
    split; [| split].
    + apply (extends_cons v v1' v' _ new 0 0); subst v1'; simpl;
        try reflexivity; try lia. exact Hext.
    + simpl. lia.
    + cbn [row_pages]. split; [eauto |].
      subst v1'. cbn [total_slide_count portrait_idx] in Hpages.
      rewrite skipn_skipn.
      replace (3 + (portrait_idx v + first * 3))%nat
        with (portrait_idx v + S first * 3)%nat by lia.
      exact Hpages.
Qed.

Lemma portrait_pages_spec portraits v :
  returns self (portrait_pages self world portraits v)
    (fun v' =>
       exists new,
         extends v v' new 0
         /\ List.length new = portrait_groups portraits (portrait_idx v)
         /\ row_pages self world (S (total_slide_count v))
              (skipn (portrait_idx v) portraits) new).
Proof.
  unfold portrait_pages, portrait_groups.
  destruct (_ >? 0)%Z.
  - pose proof (group_loop_spec portraits
                  (Z.to_nat (Py.ceil
                     (inject_Z (Z.of_nat (List.length portraits)
                                - Z.of_nat (portrait_idx v)) / 3)))
                  0%nat v) as H.
    rewrite Nat.add_0_r in H. exact H.
  - exists []. simpl. auto using extends_refl.
Qed.

End Loops.

(* ===================================================================== *)
(** ** The pages of a folder *)
(* ===================================================================== *)

Section Pages.

Variable self : SmartPPTGenerator.
Variable world : World.

Lemma mixed_pages_nth squares :
  forall num portraits new k square_img portrait_img,
    mixed_pages self world num squares portraits new ->
    nth_error squares k = Some square_img ->
    nth_error portraits k = Some portrait_img ->
    exists s,
      create_mixed_slide self world [] square_img portrait_img = Ok s
      /\ nth_error new k = Some (add_page_number self s (num + k)).
Proof.
  induction squares as [| sq squares IH];
    intros num [| po portraits] new k square_img portrait_img Hpages Hsq Hpo;
    try (destruct k; discriminate).
  destruct new as [| slide new]; [contradiction |].
  destruct Hpages as [(s & Hs & ->) Hrest].
  destruct k as [| k]; simpl in Hsq, Hpo.
  - injection Hsq as <-. injection Hpo as <-.
    exists s. rewrite Nat.add_0_r. auto.
  - destruct (IH _ _ _ _ _ _ Hrest Hsq Hpo) as (s' & Hs' & Hnth).
    exists s'. split; [exact Hs' |].
    simpl. rewrite Hnth. do 2 f_equal. lia.
Qed.

Lemma mixed_pages_files squares :
  forall num portraits new,
    mixed_pages self world num squares portraits new ->
    subseq (flat_map slide_files new) (paired_paths squares portraits).
Proof.
  induction squares as [| sq squares IH]; intros num [| po portraits] new;
    simpl; try (intros ->; constructor).
  destruct new as [| slide new]; [contradiction |].
  intros [(s & Hs & ->) Hrest]. simpl.
  rewrite add_page_number_files.
  destruct (create_mixed_slide_files _ _ _ _ _ _ Hs)
    as (placed & Hsub & Hf & _).
  rewrite Hf. simpl.
  change (path sq :: path po :: paired_paths squares portraits)
    with ([path sq; path po] ++ paired_paths squares portraits).
  apply subseq_app; [exact Hsub | eapply IH; eassumption].
Qed.

Lemma mixed_pages_texts squares :
  forall num portraits new,
    mixed_pages self world num squares portraits new ->
    map slide_texts new = map (label self) (seq num (List.length new)).
Proof.
  induction squares as [| sq squares IH]; intros num [| po portraits] new;
    simpl; try (intros ->; reflexivity).
  destruct new as [| slide new]; [contradiction |].
  intros [(s & Hs & ->) Hrest]. simpl.
  rewrite add_page_number_texts.
  destruct (create_mixed_slide_files _ _ _ _ _ _ Hs) as (_ & _ & _ & Ht).
  rewrite Ht. simpl. f_equal. eapply IH; eassumption.
Qed.

Lemma row_pages_files new :
  forall num rest,
    row_pages self world num rest new ->
    subseq (flat_map slide_files new) (map path rest).
Proof.
  induction new as [| slide new IH]; intros num rest; cbn [row_pages].
  - intros _. apply subseq_nil_l.
  - intros [(s & Hs & ->) Hrest]. cbn [flat_map].
    rewrite add_page_number_files.
    destruct (create_portrait_slide_files _ _ _ _ _ Hs)
      as (placed & Hsub & Hf & _).
    rewrite Hf. cbn [slide_files flat_map app].
    rewrite <- (firstn_skipn 3 rest) at 1. rewrite map_app.
    apply subseq_app; [exact Hsub | eapply IH; eassumption].
Qed.

Lemma row_pages_texts new :
  forall num rest,
    row_pages self world num rest new ->
    map slide_texts new = map (label self) (seq num (List.length new)).
Proof.
  induction new as [| slide new IH]; intros num rest; cbn [row_pages].
  - reflexivity.
  - intros [(s & Hs & ->) Hrest]. cbn [map List.length seq].
    rewrite add_page_number_texts.
    destruct (create_portrait_slide_files _ _ _ _ _ Hs) as (_ & _ & _ & Ht).
    rewrite Ht. cbn [slide_texts flat_map app]. f_equal.
    eapply IH; eassumption.
Qed.

Lemma mixed_pages_numbers squares :
  forall num portraits new k slide,
    mixed_pages self world num squares portraits new ->
    nth_error new k = Some slide ->
    exists s, slide = add_page_number self s (num + k) /\ slide_texts s = [].
Proof.
  induction squares as [| sq squares IH];
    intros num [| po portraits] new k slide; simpl;
    try (intros -> Hnth; destruct k; discriminate).
  destruct new as [| slide0 new]; [contradiction |].
  intros [(s & Hs & ->) Hrest] Hnth.
  destruct k as [| k]; simpl in Hnth.
  - injection Hnth as <-. exists s. rewrite Nat.add_0_r. split; [reflexivity |].
    destruct (create_mixed_slide_files _ _ _ _ _ _ Hs) as (_ & _ & _ & Ht).
    exact Ht.
  - destruct (IH _ _ _ _ _ Hrest Hnth) as (s' & -> & Ht).
    exists s'. split; [f_equal; lia | exact Ht].
Qed.

Lemma row_pages_numbers new :
  forall num rest k slide,
    row_pages self world num rest new ->
    nth_error new k = Some slide ->
    exists s, slide = add_page_number self s (num + k) /\ slide_texts s = [].
Proof.
  induction new as [| slide0 new IH]; intros num rest k slide;
    cbn [row_pages]; [intros _ Hnth; destruct k; discriminate |].
  intros [(s & Hs & ->) Hrest] Hnth.
  destruct k as [| k]; simpl in Hnth.
  - injection Hnth as <-. exists s. rewrite Nat.add_0_r. split; [reflexivity |].
    destruct (create_portrait_slide_files _ _ _ _ _ Hs) as (_ & _ & _ & Ht).
    exact Ht.
  - destruct (IH _ _ _ _ Hrest Hnth) as (s' & -> & Ht).
    exists s'. split; [f_equal; lia | exact Ht].
Qed.

End Pages.

(* ===================================================================== *)
(** ** One folder *)
(* ===================================================================== *)

Section Folder.

Variable self : SmartPPTGenerator.
Variable world : World.

Lemma folder_body_missing v folder_path :
  dir world folder_path = None ->
  folder_body self world v folder_path
  = Ok (append_summary v
          (OsPath.basename folder_path, "文件夹不存在"%string, 0%nat)).
Proof. intros H. unfold folder_body. rewrite H. reflexivity. Qed.

Lemma folder_body_empty v folder_path listing failed :
  dir world folder_path = Some listing ->
  classify_images_in_folder self world folder_path listing = ([], [], failed) ->
  folder_body self world v folder_path
  = Ok (append_summary v (OsPath.basename folder_path, "无图片"%string, 0%nat)).
Proof.
  intros Hdir Hcls. unfold folder_body. rewrite Hdir, Hcls. reflexivity.
Qed.

Lemma folder_body_spec v folder_path listing portraits squares failed :
  dir world folder_path = Some listing ->
  classify_images_in_folder self world folder_path listing
  = (portraits, squares, failed) ->
  (0 < List.length portraits + List.length squares)%nat ->
  returns self (folder_body self world v folder_path)
    (folder_done self world v folder_path portraits squares).
Proof.
  intros Hdir Hcls Hpos. unfold folder_body.
  rewrite Hdir, Hcls.
  replace (_ =? 0)%nat with false by (symmetry; apply Nat.eqb_neq; lia).
  set (m := Nat.min (List.length squares) (List.length portraits)).
  set (v0 := {| prs_slides := prs_slides v;
                total_slide_count := total_slide_count v;
                folder_summary := folder_summary v;
                folder_slide_count := 0;
                square_idx := 0;
                portrait_idx := 0 |}).
  pose proof (mixed_loop_spec self world m squares portraits v0
                eq_refl eq_refl) as H1.
  destruct (mixed_loop self world squares portraits v0) as [v1 | e];
    cbn [Py.bind]; [| exact H1].
  destruct H1 as (mixed & Hext1 & Hlen1 & Hpages1).
  pose proof (portrait_pages_spec self world portraits v1) as H2.
  destruct (portrait_pages self world portraits v1) as [v2 | e];
    cbn [Py.bind]; [| exact H2].
  destruct H2 as (rows & Hext2 & Hlen2 & Hpages2).
  pose proof (extends_trans _ _ _ _ _ _ _ Hext1 Hext2) as Hext.
  destruct Hext1 as (_ & Ht1 & _ & _ & _ & Hi1).
  destruct Hext as (Hp & Ht & Hs & Hf & Hq & Hi).
  cbn [v0 prs_slides total_slide_count folder_summary folder_slide_count
       square_idx portrait_idx] in *.
  rewrite Nat.add_0_r in Hq. cbn [Nat.add] in Hq, Hi1, Hf.
  unfold returns, folder_done. fold m. exists mixed, rows.
  unfold append_summary.
  cbn [prs_slides total_slide_count folder_summary folder_slide_count].
  rewrite (status_note_text squares portraits v2) by exact Hq.
  rewrite Hi1 in Hlen2, Hpages2. rewrite Ht1, Hlen1 in Hpages2.
  rewrite Hs, Hf. auto 10.
Qed.

(** A folder without portraits: no page is laid out. *)
Lemma folder_body_no_portraits v folder_path listing squares failed :
  dir world folder_path = Some listing ->
  classify_images_in_folder self world folder_path listing
  = ([], squares, failed) ->
  (0 < List.length squares)%nat ->
  folder_body self world v folder_path
  = Ok {| prs_slides := prs_slides v;
          total_slide_count := total_slide_count v;
          folder_summary :=
            folder_summary v
            ++ [(OsPath.basename folder_path,
                 note_text (List.length squares) 0, 0%nat)];
          folder_slide_count := 0;
          square_idx := 0;
          portrait_idx := 0 |}.
Proof.
  intros Hdir Hcls Hpos. unfold folder_body. rewrite Hdir, Hcls.
  replace (_ =? 0)%nat with false
    by (symmetry; apply Nat.eqb_neq; simpl; lia).
  rewrite mixed_loop_step.
  replace (mixed_cond squares [] _) with false
    by (unfold mixed_cond; simpl; symmetry; apply andb_false_r).
  cbn [Py.bind]. unfold portrait_pages.
  cbn [List.length portrait_idx Z.of_nat Z.sub Z.gtb Z.compare Z.opp Z.add
       Py.bind].
  rewrite status_note_text by (simpl; lia).
  reflexivity.
Qed.

Lemma numbered_initial : numbered self initial_vars.
Proof.
  split; [reflexivity |]. split; [| reflexivity].
  intros k slide H. destruct k; discriminate.
Qed.

Lemma folder_body_numbered v folder_path :
  numbered self v ->
  returns self (folder_body self world v folder_path) (numbered self).
Proof.
  intros Hnum.
  destruct (dir world folder_path) as [listing |] eqn:Hdir.
  - destruct (classify_images_in_folder self world folder_path listing)
      as [[portraits squares] failed] eqn:Hcls.
    destruct (Nat.eq_dec (List.length portraits + List.length squares) 0)
      as [Hzero | Hpos].
    + destruct portraits; [| simpl in Hzero; lia].
      destruct squares; [| simpl in Hzero; lia].
      rewrite (folder_body_empty v folder_path _ _ Hdir Hcls). exact Hnum.
    + pose proof (folder_body_spec v folder_path listing portraits squares
                    failed Hdir Hcls ltac:(lia)) as Hspec.
      destruct (folder_body self world v folder_path) as [v' | e];
        [| exact Hspec].
      destruct Hspec
        as (mixed & rows & Hp & Ht & _ & _ & Hlm & _ & Hmixed & Hrows).
      destruct Hnum as (Hcount & Hpaged & Htexts). unfold returns, numbered.
      rewrite Hp, Ht, Hcount, !length_app. split; [lia |]. split.
      * intros k slide Hnth.
        destruct (Nat.lt_ge_cases k (List.length (prs_slides v))) as [Hk | Hk].
        { rewrite nth_error_app1 in Hnth by exact Hk. eauto. }
        rewrite nth_error_app2 in Hnth by exact Hk.
        destruct (Nat.lt_ge_cases (k - List.length (prs_slides v))
                    (List.length mixed)) as [Hk' | Hk'].
        { rewrite nth_error_app1 in Hnth by exact Hk'.
          destruct (mixed_pages_numbers self world _ _ _ _ _ _ Hmixed Hnth)
            as (s & -> & Hs).
          exists s. split; [f_equal; lia | exact Hs]. }
        rewrite nth_error_app2 in Hnth by exact Hk'.
        destruct (row_pages_numbers self world _ _ _ _ _ Hrows Hnth)
          as (s & -> & Hs).
        exists s. split; [f_equal; lia | exact Hs].
      * rewrite !map_app, !seq_app, !map_app, Htexts.
        rewrite (mixed_pages_texts _ _ _ _ _ _ Hmixed).
        rewrite (row_pages_texts _ _ _ _ _ Hrows).
        cbn [Nat.add]. rewrite <- Hcount, Hlm.
        rewrite <- Nat.add_succ_l. reflexivity.
  - rewrite (folder_body_missing v folder_path Hdir). exact Hnum.
Qed.

Lemma folder_loop_numbered folders :
  forall v,
    numbered self v ->
    returns self (Py.for_each (folder_body self world) folders v)
      (numbered self).
Proof.
  induction folders as [| folder_path folders IH]; intros v Hnum.
  - exact Hnum.
  - cbn [Py.for_each].
    pose proof (folder_body_numbered v folder_path Hnum) as Hstep.
    destruct (folder_body self world v folder_path) as [v1 | e];
      [apply IH; exact Hstep | exact Hstep].
Qed.

End Folder.

(* ===================================================================== *)
(** ** The properties the specification states *)
(* ===================================================================== *)

(** C1. A folder with [P] portraits and [S] squares, [P + S > 0], adds
    [min(S,P) + ceil(max(0, P - min(S,P)) / 3)] pages: that many slides are
    appended, and that number is the folder's count in the summary.  The
    loop body returns when the canvas is at least as wide as its two
    margins. *)
Theorem folder_page_count self world v folder_path listing portraits squares
    failed :
  dir world folder_path = Some listing ->
  classify_images_in_folder self world folder_path listing
  = (portraits, squares, failed) ->
  (0 < List.length portraits + List.length squares)%nat ->
  let pages := spec_page_count (Z.of_nat (List.length squares))
                               (Z.of_nat (List.length portraits)) in
  (0 <= available_width self ->
   exists v', folder_body self world v folder_path = Ok v')
  /\ forall v',
       folder_body self world v folder_path = Ok v' ->
       exists new,
         prs_slides v' = prs_slides v ++ new
         /\ Z.of_nat (List.length new) = pages
         /\ Z.of_nat (folder_slide_count v') = pages
         /\ Z.of_nat (total_slide_count v')
            = (Z.of_nat (total_slide_count v) + pages)%Z
         /\ exists note,
              folder_summary v'
              = folder_summary v
                ++ [(OsPath.basename folder_path, note, List.length new)].
Proof.
  intros Hdir Hcls Hpos pages.
  pose proof (folder_body_spec self world v folder_path listing portraits
                squares failed Hdir Hcls Hpos) as Hspec.
  split; [apply (returns_ok _ _ _ Hspec) |].
  intros v' Hrun.
  destruct (returns_inv _ _ _ _ Hspec Hrun)
    as (mixed & rows & Hp & Ht & Hf & Hs & Hlm & Hlr & _ & _).
  assert (Hlen : Z.of_nat (List.length (mixed ++ rows)) = pages).
  { rewrite length_app, Hlm, Hlr. apply page_count_formula. }
  exists (mixed ++ rows).
  rewrite Hf, Ht, Nat2Z.inj_add, Hlen. eauto 10.
Qed.

(** C3. Phase A of a folder adds exactly [min(S, P)] mixed pages, ahead of
    the folder's portrait rows; the [k]-th of them is the mixed slide of
    the [k]-th square and the [k]-th portrait, in list order, and its
    pictures are these two, in this order (those the sink accepted; both,
    when the sink accepts every picture and no ratio is zero). *)
Theorem mixed_pages_pair_in_order self world v folder_path listing portraits
    squares failed :
  dir world folder_path = Some listing ->
  classify_images_in_folder self world folder_path listing
  = (portraits, squares, failed) ->
  (0 < List.length portraits + List.length squares)%nat ->
  let m := Nat.min (List.length squares) (List.length portraits) in
  (0 <= available_width self ->
   exists v', folder_body self world v folder_path = Ok v')
  /\ forall v',
       folder_body self world v folder_path = Ok v' ->
       exists mixed rows,
         prs_slides v' = prs_slides v ++ mixed ++ rows
         /\ List.length mixed = m
         /\ row_pages self world (S (total_slide_count v + m))
              (skipn m portraits) rows
         /\ forall k,
              (k < m)%nat ->
              exists square_img portrait_img s,
                nth_error squares k = Some square_img
                /\ nth_error portraits k = Some portrait_img
                /\ create_mixed_slide self world [] square_img portrait_img
                   = Ok s
                /\ nth_error mixed k
                   = Some (add_page_number self s
                             (S (total_slide_count v) + k))
                /\ subseq (slide_files s)
                          [path square_img; path portrait_img]
                /\ (~ ratio square_img == 0 ->
                    ~ ratio portrait_img == 0 ->
                    (forall f l t w h,
                        add_picture_ok world f l t w h = true) ->
                    slide_files s = [path square_img; path portrait_img]).
Proof.
  intros Hdir Hcls Hpos m.
  pose proof (folder_body_spec self world v folder_path listing portraits
                squares failed Hdir Hcls Hpos) as Hspec.
  split; [apply (returns_ok _ _ _ Hspec) |].
  intros v' Hrun.
  destruct (returns_inv _ _ _ _ Hspec Hrun)
    as (mixed & rows & Hp & _ & _ & _ & Hlm & _ & Hmixed & Hrows).
  exists mixed, rows. repeat (split; [assumption |]).
  intros k Hk.
  destruct (nth_error squares k) as [sq |] eqn:Hsq;
    [| apply nth_error_None in Hsq; unfold m in Hk; lia].
  destruct (nth_error portraits k) as [po |] eqn:Hpo;
    [| apply nth_error_None in Hpo; unfold m in Hk; lia].
  destruct (mixed_pages_nth self world squares _ _ _ k sq po Hmixed Hsq Hpo)
    as (s & Hs & Hnth).
  exists sq, po, s. repeat (split; [solve [auto] |]).
  destruct (create_mixed_slide_files self world [] sq po s Hs)
    as (placed & Hsub & Hf & _).
  split.
  - rewrite Hf. exact Hsub.
  - intros Hr1 Hr2 Hsink.
    exact (create_mixed_slide_all_placed self world [] sq po s Hr1 Hr2 Hsink
             Hs).
Qed.

(** C4. In a folder whose listing has no repeated name, no file is placed
    twice, on one page or on two; a square beyond the number of portraits
    is on no page, and the folder's summary note counts these squares as
    unmatched. *)
Theorem no_image_on_two_pages self world v folder_path listing portraits
    squares failed :
  dir world folder_path = Some listing ->
  NoDup listing ->
  classify_images_in_folder self world folder_path listing
  = (portraits, squares, failed) ->
  (0 < List.length portraits + List.length squares)%nat ->
  (0 <= available_width self ->
   exists v', folder_body self world v folder_path = Ok v')
  /\ forall v',
       folder_body self world v folder_path = Ok v' ->
       exists new,
         prs_slides v' = prs_slides v ++ new
         /\ NoDup (flat_map slide_files new)
         /\ (forall square_img,
               In square_img (skipn (List.length portraits) squares) ->
               forall slide,
                 In slide new -> ~ In (path square_img) (slide_files slide))
         /\ folder_summary v'
            = folder_summary v
              ++ [(OsPath.basename folder_path,
                   note_text (List.length squares) (List.length portraits),
                   List.length new)]
         /\ ((List.length portraits < List.length squares)%nat ->
             note_text (List.length squares) (List.length portraits)
             = ("已用 " ++ Py.str_of_nat (List.length portraits) ++ " 方, "
                ++ Py.str_of_nat
                     (List.length squares - List.length portraits)
                ++ " 方未匹配")%string).
Proof.
  intros Hdir Hnd Hcls Hpos.
  pose proof (folder_body_spec self world v folder_path listing portraits
                squares failed Hdir Hcls Hpos) as Hspec.
  split; [apply (returns_ok _ _ _ Hspec) |].
  intros v' Hrun.
  destruct (returns_inv _ _ _ _ Hspec Hrun)
    as (mixed & rows & Hp & _ & _ & Hs & _ & _ & Hmixed & Hrows).
  set (m := Nat.min (List.length squares) (List.length portraits)) in *.
  pose proof (buckets_distinct_paths self world folder_path listing portraits
                squares failed Hnd Hcls) as Hdistinct.
  assert (Hsub : subseq (flat_map slide_files (mixed ++ rows))
                        (paired_paths squares portraits
                         ++ map path (skipn m portraits))).
  { rewrite flat_map_app. apply subseq_app.
    - exact (mixed_pages_files self world squares _ _ _ Hmixed).
    - exact (row_pages_files self world rows _ _ Hrows). }
  pose proof (paired_paths_perm squares portraits) as Hperm. fold m in Hperm.
  exists (mixed ++ rows).
  split; [exact Hp |]. split; [| split; [| split]].
  - apply (subseq_NoDup _ _ Hsub).
    apply (Permutation_NoDup (Permutation_sym Hperm)).
    refine (subseq_NoDup _ _ _ Hdistinct).
    apply subseq_app; [| apply subseq_refl].
    apply subseq_map, subseq_firstn.
  - intros square_img Hexcess slide Hslide Hfile.
    assert (Hin : In (path square_img)
                     (map path (firstn m squares) ++ map path portraits)).
    { apply (Permutation_in _ Hperm).
      apply (subseq_In _ _ (path square_img) Hsub).
      apply in_flat_map. exists slide. auto. }
    assert (Hm : m = List.length portraits).
    { destruct (Nat.le_gt_cases (List.length squares) (List.length portraits));
        [| unfold m; lia].
      rewrite skipn_all2 in Hexcess by assumption. contradiction. }
    rewrite Hm in Hin.
    rewrite <- (firstn_skipn (List.length portraits) squares) in Hdistinct.
    rewrite map_app, <- app_assoc in Hdistinct.
    apply (in_map path) in Hexcess.
    apply in_app_or in Hin. destruct Hin as [Hin | Hin].
    + apply (NoDup_app_disjoint _ _ (path square_img) Hdistinct Hin).
      apply in_or_app. left. exact Hexcess.
    + apply NoDup_app_remove_l in Hdistinct.
      exact (NoDup_app_disjoint _ _ (path square_img) Hdistinct Hexcess Hin).
  - exact Hs.
  - intros Hlt. unfold note_text.
    rewrite Nat.min_r by lia.
    replace (_ <? _)%nat with true by (symmetry; apply Nat.ltb_lt; exact Hlt).
    reflexivity.
Qed.

(** C6. The counter is incremented once for every page, whatever the
    folder and the template: at the end of the run it equals the number of
    slides, and the slide at position [k], counted from 0, is the one that
    [add_page_number] was given with the number [k + 1] (its text box shows
    [k + 1] when page numbers are shown; no slide has a text box
    otherwise).  The run returns when the canvas is at least as wide as its
    two margins. *)
Theorem page_numbers_are_positions self world :
  (0 <= available_width self ->
   exists out, generate_ppt self world = Ok out)
  /\ forall out,
       generate_ppt self world = Ok out ->
       match out with
       | None => image_folders self = []
       | Some v =>
           total_slide_count v = List.length (prs_slides v)
           /\ (forall k slide,
                 nth_error (prs_slides v) k = Some slide ->
                 exists s,
                   slide = add_page_number self s (S k)
                   /\ slide_texts s = [])
           /\ map slide_texts (prs_slides v)
              = map (fun k => if show_page_numbers self
                              then [Py.str_of_nat k] else [])
                    (seq 1 (List.length (prs_slides v)))
       end.
Proof.
  unfold generate_ppt.
  destruct (image_folders self) as [| folder_path folders] eqn:Hfolders.
  - cbn [List.length Nat.eqb]. split; [eauto |].
    intros out H. injection H as <-. reflexivity.
  - cbn [List.length Nat.eqb].
    pose proof (folder_loop_numbered self world (folder_path :: folders)
                  initial_vars (numbered_initial self)) as Hspec.
    destruct (Py.for_each _ _ initial_vars) as [v | e]; cbn [Py.bind].
    + split; [eauto |]. intros out H. injection H as <-. exact Hspec.
    + split; [| intros out H; discriminate H].
      intros Havail. exfalso. exact (Qlt_not_le _ _ Hspec Havail).
Qed.

(** C8. An existing folder whose two lists are empty after classification,
    whatever the number of files that could not be read, is recorded with
    the note of an empty folder and zero pages; no slide is added, the
    counter is unchanged and the run goes on with the next folder. *)
Theorem empty_folder_recorded self world v folder_path listing failed rest :
  dir world folder_path = Some listing ->
  classify_images_in_folder self world folder_path listing = ([], [], failed) ->
  exists v',
    folder_body self world v folder_path = Ok v'
    /\ prs_slides v' = prs_slides v
    /\ total_slide_count v' = total_slide_count v
    /\ folder_summary v'
       = folder_summary v
         ++ [(OsPath.basename folder_path, "无图片"%string, 0%nat)]
    /\ Py.for_each (folder_body self world) (folder_path :: rest) v
       = Py.for_each (folder_body self world) rest v'.
Proof.
  intros Hdir Hcls.
  pose proof (folder_body_empty self world v folder_path listing failed Hdir
                Hcls) as Hrun.
  eexists. split; [exact Hrun |].
  repeat (split; [reflexivity |]).
  cbn [Py.for_each]. rewrite Hrun. reflexivity.
Qed.

(** C9. An existing folder with [S > 0] squares and no portrait is recorded
    as processed, not as empty: its note says that 0 squares were used and
    [S] are unmatched, its page count is zero, and no slide is added. *)
Theorem squares_only_folder self world v folder_path listing squares failed :
  dir world folder_path = Some listing ->
  classify_images_in_folder self world folder_path listing
  = ([], squares, failed) ->
  (0 < List.length squares)%nat ->
  exists v' note,
    folder_body self world v folder_path = Ok v'
    /\ prs_slides v' = prs_slides v
    /\ total_slide_count v' = total_slide_count v
    /\ folder_summary v'
       = folder_summary v ++ [(OsPath.basename folder_path, note, 0%nat)]
    /\ note = ("已用 0 方, " ++ Py.str_of_nat (List.length squares)
               ++ " 方未匹配")%string
    /\ note <> "无图片"%string.
Proof.
  intros Hdir Hcls Hpos.
  rewrite (folder_body_no_portraits self world v folder_path listing squares
             failed Hdir Hcls Hpos).
  do 2 eexists. split; [reflexivity |].
  repeat (split; [reflexivity |]).
  assert (Hnote : note_text (List.length squares) 0
                  = ("已用 0 方, " ++ Py.str_of_nat (List.length squares)
                     ++ " 方未匹配")%string).
  { unfold note_text. rewrite Nat.min_0_r, Nat.sub_0_r.
    replace (0 <? List.length squares)%nat with true
      by (symmetry; apply Nat.ltb_lt; exact Hpos).
    reflexivity. }
  split; [exact Hnote |]. rewrite Hnote. simpl. discriminate.
Qed.

(** When the scaling of the mixed template is triggered and the gap is
    positive, the row is wider than the available width afterwards: the
    two widths are scaled and the gap between them is not. *)
Lemma scaled_mixed_cells_exceed self square_img portrait_img :
  let unified_height := available_height self * image_area_ratio self in
  let total_width :=
    unified_height * ratio square_img + gap self
    + unified_height * ratio portrait_img in
  0 <= available_width self -> 0 < gap self ->
  available_width self < total_width ->
  exists x1 y1 w1 h1 x2 y2 w2 h2,
    mixed_cells self square_img portrait_img
    = Ok ((x1, y1, w1, h1), (x2, y2, w2, h2))
    /\ w1 + gap self + w2
       == available_width self
          + gap self * (1 - available_width self / total_width)
    /\ available_width self < w1 + gap self + w2.
Proof.
  intros unified_height total_width Havail Hgap Hover.
  assert (Hpos : 0 < total_width) by (eapply Qle_lt_trans; eassumption).
  pose proof (pos_nonzero _ Hpos) as Hnz.
  unfold mixed_cells. fold unified_height. fold total_width.
  replace (Py.gt total_width (available_width self)) with true
    by (symmetry; apply lt_true; exact Hover).
  rewrite truediv_ok by exact Hnz. cbn [Py.bind].
  do 8 eexists. split; [reflexivity |].
  assert (Hsum :
    unified_height * ratio square_img
      * (available_width self / total_width) + gap self
    + unified_height * ratio portrait_img
      * (available_width self / total_width)
    == available_width self
       + gap self * (1 - available_width self / total_width)).
  { unfold total_width at 1 2. fold total_width.
    unfold total_width. field. exact Hnz. }
  split; [exact Hsum |]. rewrite Hsum.
  rewrite <- (Qplus_0_r (available_width self)) at 1.
  apply Qplus_lt_r. apply Qmult_lt_0_compat; [exact Hgap |].
  assert (Hfrac : available_width self / total_width < 1).
  { apply Qlt_shift_div_r; [exact Hpos |]. rewrite Qmult_1_l. exact Hover. }
  unfold Qminus. rewrite <- (Qplus_opp_r (available_width self / total_width)).
  apply Qplus_lt_l. exact Hfrac.
Qed.

(** C2, on the code: with the default canvas, a folder that holds a
    3000x1000 panorama and a 600x1200 portrait gives one mixed page whose
    scaling is triggered, and whose two pictures and gap are together
    more than 179083 EMU (0.497 cm, two fifths of the gap) wider than the
    available width. *)
Theorem scaled_mixed_page_exceeds_available_width :
  let self := default_generator ["/f"%string] in
  exists v slide,
    generate_ppt self Demo.world = Ok (Some v)
    /\ prs_slides v = [slide]
    /\ slide_files slide = ["/f/pano.jpg"; "/f/tall.jpg"]%string
    /\ available_width self
       < available_height self * image_area_ratio self * 3 + gap self
         + available_height self * image_area_ratio self * (1 # 2)
    /\ available_width self + 179083 < placed_total self slide
    /\ placed_total self slide < available_width self + 179084.
Proof.
  intros self. do 2 eexists.
  split; [vm_compute; reflexivity |].
  split; [reflexivity |].
  split; [reflexivity |].
  split; [vm_compute; reflexivity |].
  split; vm_compute; reflexivity.
Qed.

(** The portrait row has the same defect: three 900x1000 portraits on the
    default canvas are scaled, and the row is then more than 226578 EMU
    wider than the available width. *)
Example scaled_portrait_row_exceeds_available_width :
  let self := default_generator [] in
  let img := {| path := "p.jpg"; filename := "p.jpg"; width := 900%N;
                height := 1000%N; ratio := 9 # 10; success := true |} in
  exists slide,
    create_portrait_slide self Demo.world [] [img; img; img] = Ok slide
    /\ List.length (slide_widths slide) = 3%nat
    /\ available_width self + 226578 < placed_total self slide.
Proof.
  intros self img. eexists.
  split; [vm_compute; reflexivity |].
  split; [reflexivity |]. vm_compute; reflexivity.
Qed.

(* ===================================================================== *)
(** ** The properties on the demonstration world *)
(* ===================================================================== *)

Lemma demo_canvas : 0 <= available_width Demo.generator.
Proof. apply Qle_bool_iff. reflexivity. Defined.

(** Folder [/e], one square and five portraits: [1 + ceil(4 / 3) = 3]
    pages. *)
Lemma folder_page_count_witness :
  exists v',
    folder_body Demo.generator Demo.world initial_vars "/e" = Ok v'
    /\ folder_slide_count v' = 3%nat
    /\ List.length (prs_slides v') = 3%nat.
Proof.
  destruct (folder_page_count Demo.generator Demo.world initial_vars "/e"
              _ _ _ _ eq_refl eq_refl) as [Hreturns Hpages].
  - vm_compute. lia.
  - destruct (Hreturns demo_canvas) as [v' Hrun].
    destruct (Hpages v' Hrun) as (new & Hslides & Hnew & Hcount & _).
    exists v'. split; [exact Hrun |]. split.
    + apply Nat2Z.inj. rewrite Hcount. reflexivity.
    + rewrite Hslides. apply Nat2Z.inj. simpl List.length.
      rewrite Hnew. reflexivity.
Defined.

(** Folder [/a], three squares and two portraits: two mixed pages, the
    first with [wide.PNG] and [p1.jpg], and no portrait row. *)
Lemma mixed_pages_pair_in_order_witness :
  exists v' mixed rows,
    folder_body Demo.generator Demo.world initial_vars "/a" = Ok v'
    /\ prs_slides v' = mixed ++ rows
    /\ List.length mixed = 2%nat
    /\ exists slide,
         nth_error mixed 0 = Some slide
         /\ slide_files slide = ["/a/wide.PNG"; "/a/p1.jpg"]%string.
Proof.
  destruct (mixed_pages_pair_in_order Demo.generator Demo.world initial_vars
              "/a" _ _ _ _ eq_refl eq_refl) as [Hreturns Hpages].
  - vm_compute. lia.
  - destruct (Hreturns demo_canvas) as [v' Hrun].
    destruct (Hpages v' Hrun) as (mixed & rows & Hslides & Hlen & _ & Hpairs).
    exists v', mixed, rows.
    split; [exact Hrun |]. split; [exact Hslides |]. split; [exact Hlen |].
    destruct (Hpairs 0%nat) as (sq & po & s & Hsq & Hpo & _ & Hnth & _ & Hall).
    + vm_compute. lia.
    + eexists. split; [exact Hnth |].
      rewrite add_page_number_files.
      injection Hsq as <-. injection Hpo as <-.
      apply Hall; [discriminate | discriminate | reflexivity].
Defined.

(** Folder [/a]: the third square, [pano.jpg], is on no page, and the note
    counts it. *)
Lemma no_image_on_two_pages_witness :
  exists v' new,
    folder_body Demo.generator Demo.world initial_vars "/a" = Ok v'
    /\ prs_slides v' = new
    /\ NoDup (flat_map slide_files new)
    /\ (forall slide, In slide new -> ~ In "/a/pano.jpg"%string
                                          (slide_files slide))
    /\ folder_summary v'
       = [("a", "已用 2 方, 1 方未匹配", List.length new)]%string.
Proof.
  assert (Hlisting :
    NoDup ["p1.jpg"; "wide.PNG"; "sq.png"; "notes.txt"; "p2.jpeg";
           "pano.jpg"]%string).
  { repeat (constructor; [simpl; intuition discriminate |]). constructor. }
  destruct (no_image_on_two_pages Demo.generator Demo.world initial_vars
              "/a" _ _ _ _ eq_refl Hlisting eq_refl) as [Hreturns Hpages].
  - vm_compute. lia.
  - destruct (Hreturns demo_canvas) as [v' Hrun].
    destruct (Hpages v' Hrun)
      as (new & Hslides & Hnodup & Hexcess & Hsummary & _).
    exists v', new. repeat (split; [assumption |]). split.
    + intros slide Hin. exact (Hexcess _ (or_introl eq_refl) slide Hin).
    + exact Hsummary.
Defined.

(** The demonstration run: four slides, numbered 1 to 4. *)
Lemma page_numbers_are_positions_witness :
  exists v,
    generate_ppt Demo.generator Demo.world = Ok (Some v)
    /\ total_slide_count v = 4%nat
    /\ map slide_texts (prs_slides v) = [["1"]; ["2"]; ["3"]; ["4"]]%string.
Proof.
  destruct (page_numbers_are_positions Demo.generator Demo.world)
    as [Hreturns Hnumbers].
  destruct (Hreturns demo_canvas) as [out Hrun].
  pose proof (Hnumbers out Hrun) as Hout.
  assert (Hlen : match out with
                 | Some v => List.length (prs_slides v) = 4%nat
                 | None => False
                 end).
  { vm_compute in Hrun. injection Hrun as <-. reflexivity. }
  destruct out as [v |]; [| contradiction].
  exists v. split; [exact Hrun |].
  destruct Hout as (Hcount & _ & Htexts).
  rewrite Hcount, Htexts, Hlen. repeat split.
Defined.

(** Folder [/b]: one file is not an image and the other cannot be read. *)
Lemma empty_folder_recorded_witness :
  exists v',
    folder_body Demo.generator Demo.world initial_vars "/b" = Ok v'
    /\ prs_slides v' = []
    /\ folder_summary v' = [("b", "无图片", 0%nat)]%string.
Proof.
  destruct (empty_folder_recorded Demo.generator Demo.world initial_vars "/b"
              _ 1%nat [] eq_refl eq_refl)
    as (v' & Hrun & Hslides & _ & Hsummary & _).
  exists v'. auto.
Defined.

(** Folder [/d]: two squares and no portrait. *)
Lemma squares_only_folder_witness :
  exists v',
    folder_body Demo.generator Demo.world initial_vars "/d" = Ok v'
    /\ prs_slides v' = []
    /\ folder_summary v' = [("d", "已用 0 方, 2 方未匹配", 0%nat)]%string.
Proof.
  destruct (squares_only_folder Demo.generator Demo.world initial_vars "/d"
              _ _ _ eq_refl eq_refl)
    as (v' & note & Hrun & Hslides & _ & Hsummary & Hnote & _).
  - vm_compute. lia.
  - exists v'. split; [exact Hrun |]. split; [exact Hslides |].
    rewrite Hsummary, Hnote. reflexivity.
Defined.

(* ===================================================================== *)
(** ** Further properties: the classifier *)
(* ===================================================================== *)

Lemma inspected_unreadable_count self world folder_path listing :
  (List.length (inspected self world folder_path listing)
   + List.length (unreadable self world folder_path listing))%nat
  = List.length (filter (is_supported self) listing).
Proof.
  induction listing as [| name rest IH]; [reflexivity |].
  unfold inspected, unreadable in *. cbn [flat_map filter].
  destruct (is_supported self name); cbn [andb app]; [| exact IH].
  destruct (robust_read_image world _); cbn [List.length app]; lia.
Qed.

Lemma inspected_app self world folder_path l1 l2 :
  inspected self world folder_path (l1 ++ l2)
  = inspected self world folder_path l1 ++ inspected self world folder_path l2.
Proof. unfold inspected. apply flat_map_app. Qed.

Lemma inspected_supported self world folder_path listing :
  inspected self world folder_path (filter (is_supported self) listing)
  = inspected self world folder_path listing.
Proof.
  induction listing as [| name rest IH]; [reflexivity |].
  cbn [filter]. destruct (is_supported self name) eqn:Hs.
  - unfold inspected in *. cbn [flat_map]. rewrite Hs, IH. reflexivity.
  - rewrite IH. unfold inspected. cbn [flat_map]. rewrite Hs. reflexivity.
Qed.

Lemma unreadable_supported self world folder_path listing :
  unreadable self world folder_path (filter (is_supported self) listing)
  = unreadable self world folder_path listing.
Proof.
  induction listing as [| name rest IH]; [reflexivity |].
  cbn [filter]. destruct (is_supported self name) eqn:Hs.
  - unfold unreadable in *. cbn [filter]. rewrite Hs, IH. reflexivity.
  - rewrite IH. unfold unreadable. cbn [filter]. rewrite Hs. reflexivity.
Qed.

(** X1. Every supported name of the listing is accounted for once: the
    lengths of the two lists and the count of failures add up to the number
    of names with a supported extension. *)
Theorem classify_accounts_for_supported_names self world folder_path listing
    portraits squares failed :
  classify_images_in_folder self world folder_path listing
  = (portraits, squares, failed) ->
  (List.length portraits + List.length squares + failed)%nat
  = List.length (filter (is_supported self) listing).
Proof.
  rewrite classify_images_in_folder_eq. intros H. injection H as <- <- <-.
  rewrite <- (inspected_unreadable_count self world folder_path listing).
  f_equal.
  rewrite <- length_app.
  apply Permutation_length, filter_split_perm.
Qed.

(** X2. Classification goes through the listing in order and looks at
    supported names only: the result for a listing is the result for its
    supported names, and the result for two listings one after the other
    is the two results put together, list by list, with the failures
    added. *)
Theorem classify_listing_in_order self world folder_path l1 l2 :
  classify_images_in_folder self world folder_path
    (filter (is_supported self) l1)
  = classify_images_in_folder self world folder_path l1
  /\ classify_images_in_folder self world folder_path (l1 ++ l2)
     = (let '(p1, s1, f1) :=
          classify_images_in_folder self world folder_path l1 in
        let '(p2, s2, f2) :=
          classify_images_in_folder self world folder_path l2 in
        (p1 ++ p2, s1 ++ s2, (f1 + f2)%nat)).
Proof.
  rewrite !classify_images_in_folder_eq.
  rewrite inspected_supported, unreadable_supported.
  split; [reflexivity |].
  rewrite inspected_app, !filter_app. unfold unreadable.
  rewrite filter_app, length_app. reflexivity.
Qed.

Lemma basename_aux_no_slash s acc :
  has_slash s = false -> OsPath.basename_aux s acc = acc.
Proof.
  induction s as [| c s IH]; simpl; intros H; [reflexivity |].
  apply orb_false_iff in H. destruct H as [Hc Hs].
  rewrite Hc. apply IH, Hs.
Qed.

Lemma basename_after_slash prefix name acc :
  has_slash name = false ->
  OsPath.basename_aux (prefix ++ String "/" name) acc = name.
Proof.
  intros Hname. revert acc.
  induction prefix as [| c prefix IH]; intros acc; simpl.
  - apply basename_aux_no_slash, Hname.
  - destruct (Ascii.eqb c "/"); apply IH.
Qed.

Lemma substring_last_char c s :
  substring (String.length (String c s) - 1) 1 (String c s)
  = String "/" EmptyString ->
  exists prefix, String c s = (prefix ++ String "/" EmptyString)%string.
Proof.
  revert c. induction s as [| d s IH]; intros c.
  - simpl. intros H. injection H as ->. exists EmptyString. reflexivity.
  - intros H.
    replace (String.length (String c (String d s)) - 1)%nat
      with (S (String.length (String d s) - 1)) in H by (simpl; lia).
    cbn [substring] in H. destruct (IH d H) as [prefix Hp].
    exists (String c prefix). simpl. rewrite Hp. reflexivity.
Qed.

Lemma append_assoc (a b c : string) :
  ((a ++ b) ++ c)%string = (a ++ (b ++ c))%string.
Proof. induction a as [| x a IH]; simpl; [| rewrite IH]; reflexivity. Qed.

Lemma basename_join folder_path name :
  has_slash name = false ->
  OsPath.basename (OsPath.join folder_path name) = name.
Proof.
  intros Hname. unfold OsPath.basename, OsPath.join.
  destruct folder_path as [| c rest].
  - simpl. apply basename_aux_no_slash, Hname.
  - cbn [String.length Nat.eqb orb].
    destruct (Py.endswith (String c rest) "/") eqn:Hend.
    + unfold Py.endswith in Hend. apply andb_prop in Hend.
      destruct Hend as [_ Heq]. apply String.eqb_eq in Heq.
      destruct (substring_last_char c rest Heq) as [prefix ->].
      rewrite append_assoc. cbn [append].
      apply basename_after_slash, Hname.
    + change (String c rest ++ "/" ++ name)%string
        with (String c rest ++ String "/" name)%string.
      apply basename_after_slash, Hname.
Qed.

(** X3. Every record of the two lists comes from a supported name of the
    listing: its path is the folder joined with the name, its file name is
    the name again (for a name without a separator), and its size is the
    one the decoder gave for that path, with a height that is not zero. *)
Theorem bucket_records_come_from_listing self world folder_path listing
    portraits squares failed img :
  classify_images_in_folder self world folder_path listing
  = (portraits, squares, failed) ->
  In img (portraits ++ squares) ->
  exists name,
    In name listing
    /\ is_supported self name = true
    /\ path img = OsPath.join folder_path name
    /\ (has_slash name = false -> filename img = name)
    /\ image_size world (path img) = Some (width img, height img)
    /\ height img <> 0%N
    /\ success img = true.
Proof.
  rewrite classify_images_in_folder_eq. intros H Hin. injection H as <- <- _.
  assert (Himg : In img (inspected self world folder_path listing)).
  { apply in_app_or in Hin.
    destruct Hin as [Hin | Hin]; apply filter_In in Hin; tauto. }
  destruct (inspected_inv _ _ _ _ _ Himg) as (name & Hname & Hsup & Hread).
  exists name. split; [exact Hname |]. split; [exact Hsup |].
  pose proof (robust_read_image_inv _ _ _ Hread) as (Hpath & Hsize & Hh & _).
  assert (Hfile : filename img = OsPath.basename (OsPath.join folder_path name)
                  /\ success img = true).
  { unfold robust_read_image in Hread.
    destruct (image_size world _) as [[w h] |]; [| discriminate].
    destruct (Py.truediv _ _); [| discriminate].
    injection Hread as <-. split; reflexivity. }
  destruct Hfile as [Hfile Hsuccess].
  split; [exact Hpath |]. split.
  - intros Hslash. rewrite Hfile. apply basename_join, Hslash.
  - rewrite Hpath at 1. auto.
Qed.

Lemma lower_ascii_not_upper c : is_upper (Py.lower_ascii c) = false.
Proof.
  destruct c as [[] [] [] [] [] [] [] []]; reflexivity.
Qed.

Lemma lower_has_no_upper s : has_upper (Py.lower s) = false.
Proof.
  induction s as [| c s IH]; simpl; [reflexivity |].
  rewrite lower_ascii_not_upper, IH. reflexivity.
Qed.

Lemma substring_no_upper s :
  has_upper s = false ->
  forall n m, has_upper (substring n m s) = false.
Proof.
  induction s as [| c s IH]; intros H n m.
  - destruct n, m; reflexivity.
  - simpl in H. apply orb_false_iff in H. destruct H as [Hc Hs].
    destruct n as [| n]; destruct m as [| m]; simpl;
      try reflexivity; try (apply IH; exact Hs).
    rewrite Hc. apply IH, Hs.
Qed.

Lemma substring_zero_length s n : substring n 0 s = EmptyString.
Proof.
  revert n. induction s as [| c s IH]; intros [| n]; simpl; auto.
Qed.

Lemma endswith_empty s : Py.endswith s EmptyString = true.
Proof.
  unfold Py.endswith. cbn [String.length Nat.leb andb].
  rewrite substring_zero_length. reflexivity.
Qed.

(** X4. The name is put in lower case before the comparison and the
    configured extensions are not: an extension that holds an upper-case
    ASCII letter matches no file, so the supported names are those of the
    other extensions. *)
Theorem upper_case_extension_matches_nothing self name :
  (forall ext,
      has_upper ext = true -> Py.endswith (Py.lower name) ext = false)
  /\ is_supported self name
     = existsb (fun ext => Py.endswith (Py.lower name) ext)
         (filter (fun ext => negb (has_upper ext)) (supported_formats self)).
Proof.
  assert (Hnone : forall ext,
             has_upper ext = true -> Py.endswith (Py.lower name) ext = false).
  { intros ext Hup. unfold Py.endswith.
    destruct (_ <=? _)%nat; [| reflexivity]. cbn [andb].
    apply String.eqb_neq. intros Heq.
    rewrite <- Heq, substring_no_upper in Hup by apply lower_has_no_upper.
    discriminate. }
  split; [exact Hnone |]. unfold is_supported.
  induction (supported_formats self) as [| ext exts IH]; [reflexivity |].
  cbn [existsb filter]. destruct (has_upper ext) eqn:Hup; cbn [negb].
  - rewrite (Hnone ext Hup). exact IH.
  - cbn [existsb]. rewrite IH. reflexivity.
Qed.

(** X5. An empty extension matches every name: with an empty string among
    the supported formats, every entry of a folder is read as an image. *)
Theorem empty_extension_matches_everything self name :
  In EmptyString (supported_formats self) ->
  is_supported self name = true.
Proof.
  intros Hin. unfold is_supported. apply existsb_exists.
  exists EmptyString. split; [exact Hin | apply endswith_empty].
Qed.

(* ===================================================================== *)
(** ** Further properties: the geometry *)
(* ===================================================================== *)





(* ===================================================================== *)
(** ** Further properties: the run *)
(* ===================================================================== *)

Lemma subseq_length {A} (l1 l2 : list A) :
  subseq l1 l2 -> (List.length l1 <= List.length l2)%nat.
Proof. induction 1; simpl; lia. Qed.

Lemma in_skipn {A} (l : list A) n x : In x (skipn n l) -> In x l.
Proof.
  intros H. rewrite <- (firstn_skipn n l). apply in_or_app. right. exact H.
Qed.

Lemma Forall2_nth_error {A B} (R : A -> B -> Prop) l l' :
  Forall2 R l l' ->
  forall k x, nth_error l k = Some x ->
              exists y, nth_error l' k = Some y /\ R x y.
Proof.
  induction 1 as [| a b l l' Hab _ IH]; intros [| k] x Hx; try discriminate.
  - injection Hx as <-. exists b. auto.
  - exact (IH k x Hx).
Qed.

Lemma mixed_pages_slide self world squares :
  forall num portraits new slide,
    mixed_pages self world num squares portraits new -> In slide new ->
    exists square_img portrait_img,
      In square_img squares /\ In portrait_img portraits
      /\ subseq (slide_files slide) [path square_img; path portrait_img].
Proof.
  induction squares as [| sq squares IH];
    intros num [| po portraits] new slide; simpl;
    try (intros -> []).
  destruct new as [| slide0 new]; [contradiction |].
  intros [(s & Hs & ->) Hrest] [<- | Hin].
  - exists sq, po. split; [auto |]. split; [auto |].
    rewrite add_page_number_files.
    destruct (create_mixed_slide_files _ _ _ _ _ _ Hs)
      as (placed & Hsub & Hf & _).
    rewrite Hf. exact Hsub.
  - destruct (IH _ _ _ _ Hrest Hin) as (a & b & Ha & Hb & Hsub).
    exists a, b. auto.
Qed.

Lemma row_pages_slide self world new :
  forall num rest slide,
    row_pages self world num rest new -> In slide new ->
    exists imgs,
      (List.length imgs <= 3)%nat
      /\ (forall img, In img imgs -> In img rest)
      /\ subseq (slide_files slide) (map path imgs).
Proof.
  induction new as [| slide0 new IH]; intros num rest slide;
    cbn [row_pages]; [intros _ [] |].
  intros [(s & Hs & ->) Hrest] [<- | Hin].
  - exists (firstn 3 rest). split; [apply firstn_le_length |]. split.
    + intros img Himg. exact (subseq_In _ _ _ (subseq_firstn 3 rest) Himg).
    + rewrite add_page_number_files.
      destruct (create_portrait_slide_files _ _ _ _ _ Hs)
        as (placed & Hsub & Hf & _).
      rewrite Hf. exact Hsub.
  - destruct (IH _ _ _ Hrest Hin) as (imgs & Hlen & Hsubset & Hsub).
    exists imgs. split; [exact Hlen |]. split; [| exact Hsub].
    intros img Himg. exact (in_skipn _ _ _ (Hsubset img Himg)).
Qed.

Lemma bucket_names self world folder_path listing portraits squares failed
    img :
  classify_images_in_folder self world folder_path listing
  = (portraits, squares, failed) ->
  In img squares \/ In img portraits ->
  exists name,
    In name listing /\ is_supported self name = true
    /\ robust_read_image world (OsPath.join folder_path name) = Some img.
Proof.
  rewrite classify_images_in_folder_eq. intros H Hin. injection H as <- <- _.
  apply inspected_inv.
  destruct Hin as [Hin | Hin]; apply filter_In in Hin; tauto.
Qed.

Lemma folder_body_block self world v folder_path v' :
  folder_body self world v folder_path = Ok v' ->
  exists c,
    prs_slides v' = prs_slides v ++ fst c
    /\ folder_summary v' = folder_summary v ++ [snd c]
    /\ total_slide_count v'
       = (total_slide_count v + List.length (fst c))%nat
    /\ folder_block self world folder_path c.
Proof.
  intros Hrun.
  destruct (dir world folder_path) as [listing |] eqn:Hdir.
  - destruct (classify_images_in_folder self world folder_path listing)
      as [[portraits squares] failed] eqn:Hcls.
    destruct (Nat.eq_dec (List.length portraits + List.length squares) 0)
      as [Hzero | Hpos].
    + destruct portraits; [| simpl in Hzero; lia].
      destruct squares; [| simpl in Hzero; lia].
      rewrite (folder_body_empty self world v folder_path _ _ Hdir Hcls)
        in Hrun.
      injection Hrun as <-.
      exists ([], (OsPath.basename folder_path, "无图片"%string, 0%nat)).
      unfold folder_block. simpl. rewrite app_nil_r, Nat.add_0_r.
      do 5 (split; [reflexivity |]). split; [intros H; congruence |].
      split; [intros slide [] | intros slide file []].
    + pose proof (folder_body_spec self world v folder_path listing portraits
                    squares failed Hdir Hcls ltac:(lia)) as Hspec.
      rewrite Hrun in Hspec.
      destruct Hspec
        as (mixed & rows & Hp & Ht & _ & Hs & _ & _ & Hmixed & Hrows).
      exists (mixed ++ rows,
              (OsPath.basename folder_path,
               note_text (List.length squares) (List.length portraits),
               List.length (mixed ++ rows))).
      unfold folder_block. cbn [fst snd].
      split; [exact Hp |]. split; [exact Hs |]. split; [exact Ht |].
      split; [reflexivity |]. split; [reflexivity |].
      split; [intros H; congruence |].
      assert (Hpage : forall slide,
                 In slide (mixed ++ rows) ->
                 exists imgs,
                   (List.length imgs <= 3)%nat
                   /\ (forall img, In img imgs ->
                                   In img squares \/ In img portraits)
                   /\ subseq (slide_files slide) (map path imgs)).
      { intros slide Hin. apply in_app_or in Hin. destruct Hin as [Hin | Hin].
        - destruct (mixed_pages_slide _ _ _ _ _ _ _ Hmixed Hin)
            as (sq & po & Hsq & Hpo & Hsub).
          exists [sq; po]. split; [simpl; lia |]. split; [| exact Hsub].
          intros img [<- | [<- | []]]; auto.
        - destruct (row_pages_slide _ _ _ _ _ _ Hrows Hin)
            as (imgs & Hlen & Hsubset & Hsub).
          exists imgs. split; [exact Hlen |]. split; [| exact Hsub].
          intros img Himg. right.
          exact (in_skipn _ _ _ (Hsubset img Himg)). }
      split.
      * intros slide Hin.
        destruct (Hpage slide Hin) as (imgs & Hlen & _ & Hsub).
        apply subseq_length in Hsub. rewrite length_map in Hsub. lia.
      * intros slide file Hin Hfile.
        destruct (Hpage slide Hin) as (imgs & _ & Hsubset & Hsub).
        apply (subseq_In _ _ _ Hsub) in Hfile.
        apply in_map_iff in Hfile. destruct Hfile as (img & <- & Himg).
        destruct (bucket_names _ _ _ _ _ _ _ _ Hcls (Hsubset img Himg))
          as (name & Hname & Hsup & Hread).
        exists listing, name. repeat split; try assumption.
        apply (robust_read_image_inv _ _ _ Hread).
  - rewrite (folder_body_missing self world v folder_path Hdir) in Hrun.
    injection Hrun as <-.
    exists ([], (OsPath.basename folder_path, "文件夹不存在"%string, 0%nat)).
    unfold folder_block. simpl. rewrite app_nil_r, Nat.add_0_r.
    do 5 (split; [reflexivity |]). split; [intros _; split; reflexivity |].
    split; [intros slide [] | intros slide file []].
Qed.

Lemma folder_loop_blocks self world folders :
  forall v v',
    Py.for_each (folder_body self world) folders v = Ok v' ->
    exists cs,
      Forall2 (folder_block self world) folders cs
      /\ prs_slides v' = prs_slides v ++ List.concat (map fst cs)
      /\ folder_summary v' = folder_summary v ++ map snd cs
      /\ total_slide_count v'
         = (total_slide_count v + List.length (List.concat (map fst cs)))%nat.
Proof.
  induction folders as [| folder_path folders IH]; intros v v' Hrun.
  - injection Hrun as <-. exists []. simpl.
    rewrite !app_nil_r, Nat.add_0_r. auto.
  - cbn [Py.for_each] in Hrun.
    destruct (folder_body self world v folder_path) as [v1 | e] eqn:Hstep;
      [| discriminate].
    destruct (folder_body_block _ _ _ _ _ Hstep) as (c & Hp & Hs & Ht & Hblock).
    destruct (IH _ _ Hrun) as (cs & Hall & Hp' & Hs' & Ht').
    exists (c :: cs). split; [constructor; assumption |].
    simpl. rewrite Hp', Hp, Hs', Hs, Ht', Ht, length_app, <- !app_assoc.
    simpl. repeat split; lia.
Qed.

(** The run, from the first folder on. *)
Lemma generate_ppt_blocks self world v :
  generate_ppt self world = Ok (Some v) ->
  exists cs,
    Forall2 (folder_block self world) (image_folders self) cs
    /\ prs_slides v = List.concat (map fst cs)
    /\ folder_summary v = map snd cs
    /\ total_slide_count v = List.length (List.concat (map fst cs))
    /\ numbered self v.
Proof.
  unfold generate_ppt. destruct (_ =? 0)%nat; [discriminate |].
  destruct (Py.for_each _ _ _) as [v' | e] eqn:Hrun; [| discriminate].
  simpl. intros H. injection H as <-.
  destruct (folder_loop_blocks _ _ _ _ _ Hrun) as (cs & Hall & Hp & Hs & Ht).
  exists cs. split; [exact Hall |]. split; [exact Hp |].
  split; [exact Hs |]. split; [exact Ht |].
  pose proof (folder_loop_numbered self world (image_folders self)
                initial_vars (numbered_initial self)) as Hnum.
  rewrite Hrun in Hnum. exact Hnum.
Qed.

Lemma blocks_names self world folders cs :
  Forall2 (folder_block self world) folders cs ->
  summary_names (map snd cs) = map OsPath.basename folders
  /\ map snd (map snd cs) = map (@List.length Slide) (map fst cs).
Proof.
  induction 1 as [| folder_path c folders cs Hc _ [IH1 IH2]];
    [split; reflexivity |].
  destruct Hc as (Hname & Hcount & _).
  unfold summary_names in *. simpl.
  rewrite Hname, Hcount, IH1, IH2. split; reflexivity.
Qed.

(** X11. The summary of a run has one entry for every configured folder,
    in the configured order and under the last component of its path; the
    page counts of the entries add up to the number of slides and to the
    page counter; a folder that does not exist is recorded as missing,
    with zero pages, at its place in the summary. *)
Theorem summary_has_one_entry_per_folder self world v :
  generate_ppt self world = Ok (Some v) ->
  summary_names (folder_summary v)
  = map OsPath.basename (image_folders self)
  /\ summary_pages (folder_summary v) = List.length (prs_slides v)
  /\ summary_pages (folder_summary v) = total_slide_count v
  /\ forall k folder_path,
       nth_error (image_folders self) k = Some folder_path ->
       dir world folder_path = None ->
       nth_error (folder_summary v) k
       = Some (OsPath.basename folder_path, "文件夹不存在"%string, 0%nat).
Proof.
  intros Hrun.
  destruct (generate_ppt_blocks _ _ _ Hrun) as (cs & Hall & Hp & Hs & Ht & _).
  destruct (blocks_names _ _ _ _ Hall) as [Hnames Hcounts].
  assert (Hpages : summary_pages (folder_summary v)
                   = List.length (List.concat (map fst cs))).
  { unfold summary_pages. rewrite Hs, Hcounts, length_concat. reflexivity. }
  rewrite Hp, Ht, Hs. split; [exact Hnames |].
  rewrite Hs in Hpages. split; [exact Hpages |]. split; [exact Hpages |].
  intros k folder_path Hk Hdir.
  destruct (Forall2_nth_error _ _ _ Hall k folder_path Hk)
    as (c & Hc & Hname & Hcount & Hmissing & _).
  destruct (Hmissing Hdir) as [Hblock Hnote].
  rewrite nth_error_map, Hc. simpl.
  destruct c as [block [[name note] count]]. simpl in *.
  subst. reflexivity.
Qed.

(** X12. The slides of a run are the pages of the first folder, then those
    of the second, and so on, as many for each folder as its summary entry
    says; the pictures on the pages of a folder are files of that folder:
    supported names of its listing, joined to its path. *)
Theorem pages_are_grouped_by_folder self world v :
  generate_ppt self world = Ok (Some v) ->
  exists blocks,
    prs_slides v = List.concat blocks
    /\ map (@List.length Slide) blocks = map snd (folder_summary v)
    /\ Forall2
         (fun folder_path block =>
            forall slide file,
              In slide block -> In file (slide_files slide) ->
              exists listing name,
                dir world folder_path = Some listing
                /\ In name listing
                /\ is_supported self name = true
                /\ file = OsPath.join folder_path name)
         (image_folders self) blocks.
Proof.
  intros Hrun.
  destruct (generate_ppt_blocks _ _ _ Hrun) as (cs & Hall & Hp & Hs & _).
  destruct (blocks_names _ _ _ _ Hall) as [_ Hcounts].
  exists (map fst cs). split; [exact Hp |].
  split; [rewrite Hs; symmetry; exact Hcounts |].
  clear Hp Hs Hcounts Hrun.
  induction Hall as [| folder_path c folders cs Hc _ IH]; simpl;
    constructor; [| exact IH].
  destruct Hc as (_ & _ & _ & _ & Hfiles). exact Hfiles.
Qed.

(** X13. No page of a run holds more than three pictures, and every page
    holds one text box, its number, when page numbers are shown, and none
    otherwise. *)
Theorem no_page_is_overfull self world v slide :
  generate_ppt self world = Ok (Some v) ->
  In slide (prs_slides v) ->
  (List.length (slide_files slide) <= 3)%nat
  /\ List.length (slide_texts slide)
     = (if show_page_numbers self then 1%nat else 0%nat).
Proof.
  intros Hrun Hin.
  destruct (generate_ppt_blocks _ _ _ Hrun) as (cs & Hall & Hp & _ & _ & Hnum).
  split.
  - rewrite Hp in Hin. apply in_concat in Hin.
    destruct Hin as (block & Hblock & Hslide).
    apply in_map_iff in Hblock. destruct Hblock as (c & <- & Hc).
    clear Hp Hnum Hrun.
    induction Hall as [| folder_path c0 folders cs Hc0 _ IH];
      [contradiction |].
    destruct Hc as [<- | Hc]; [| exact (IH Hc)].
    destruct Hc0 as (_ & _ & _ & Hsize & _). exact (Hsize slide Hslide).
  - destruct Hnum as (_ & Hpaged & _).
    apply In_nth_error in Hin. destruct Hin as [k Hk].
    destruct (Hpaged k slide Hk) as (s & -> & Hs).
    rewrite add_page_number_texts, Hs. unfold label.
    destruct (show_page_numbers self); reflexivity.
Qed.

Lemma read_ratio_nonzero world filepath img :
  robust_read_image world filepath = Some img ->
  width img <> 0%N -> ~ ratio img == 0.
Proof.
  intros Hread Hw E.
  destruct (robust_read_image_inv world _ _ Hread) as (_ & _ & Hh & Hr).
  rewrite Hr in E.
  assert (Hh' : ~ inject_Z (Z.of_N (height img)) == 0).
  { change 0 with (inject_Z 0). rewrite inject_Z_injective. lia. }
  assert (E' : inject_Z (Z.of_N (width img)) == 0).
  { transitivity (inject_Z (Z.of_N (height img))
                  * (inject_Z (Z.of_N (width img))
                     / inject_Z (Z.of_N (height img)))).
    - symmetry. apply Qmult_div_r, Hh'.
    - rewrite E. ring. }
  change 0 with (inject_Z 0) in E'. rewrite inject_Z_injective in E'. lia.
Qed.

Lemma bucket_ratios_nonzero self world folder_path listing portraits squares
    failed :
  (forall p w h, image_size world p = Some (w, h) -> w <> 0%N) ->
  classify_images_in_folder self world folder_path listing
  = (portraits, squares, failed) ->
  Forall (fun img => ~ ratio img == 0) squares
  /\ Forall (fun img => ~ ratio img == 0) portraits.
Proof.
  intros Hwidth Hcls.
  assert (H : forall img, In img squares \/ In img portraits ->
                          ~ ratio img == 0).
  { intros img Hin.
    destruct (bucket_names _ _ _ _ _ _ _ _ Hcls Hin) as (name & _ & _ & Hread).
    apply (read_ratio_nonzero world _ _ Hread).
    destruct (robust_read_image_inv world _ _ Hread) as (_ & Hsize & _).
    exact (Hwidth _ _ _ Hsize). }
  split; apply Forall_forall; intros img Hin; apply H; auto.
Qed.

Lemma portrait_place_loop_all self world image_widths start_y unified_height
    items :
  (forall f l t w h, add_picture_ok world f l t w h = true) ->
  (forall i img, In (i, img) items -> ~ ratio img == 0) ->
  forall slide current_x st,
    Py.for_each (portrait_place self world image_widths start_y
                   unified_height) items (slide, current_x) = Ok st ->
    slide_files (fst st)
    = slide_files slide ++ map (fun it => path (snd it)) items.
Proof.
  intros Hsink.
  induction items as [| [i img] rest IH]; intros Hratio slide current_x st.
  - simpl. intros H. injection H as <-. simpl. symmetry. apply app_nil_r.
  - cbn [Py.for_each]. unfold portrait_place at 1. unfold Py.getitem.
    destruct (nth_error image_widths i) as [w |]; cbn [Py.bind];
      [| discriminate].
    rewrite (add_image_to_slide_placed self world slide img current_x start_y
               w unified_height
               (Hratio i img (or_introl eq_refl)) Hsink).
    cbn [fst]. intros Hrest.
    rewrite (IH (fun j img' Hj => Hratio j img' (or_intror Hj)) _ _ _ Hrest).
    rewrite slide_files_app. simpl. rewrite <- app_assoc. reflexivity.
Qed.

Lemma create_portrait_slide_all_placed self world s portrait_imgs s' :
  Forall (fun img => ~ ratio img == 0) portrait_imgs ->
  (forall f l t w h, add_picture_ok world f l t w h = true) ->
  create_portrait_slide self world s portrait_imgs = Ok s' ->
  slide_files s' = slide_files s ++ map path portrait_imgs.
Proof.
  intros Hratio Hsink. unfold create_portrait_slide.
  destruct (portrait_row self portrait_imgs) as [[[[ws uh] sx] sy] | e];
    cbn [Py.bind]; [| discriminate].
  destruct (Py.for_each _ _ _) as [st |] eqn:Hloop; cbn [Py.bind];
    [| discriminate].
  intros H. injection H as <-.
  assert (Hitems : forall i img,
             In (i, img)
                (combine (seq 0 (List.length portrait_imgs)) portrait_imgs) ->
             ~ ratio img == 0).
  { intros i img Hin. apply in_combine_r in Hin.
    rewrite Forall_forall in Hratio. exact (Hratio img Hin). }
  rewrite (portrait_place_loop_all self world ws sy uh _ Hsink Hitems _ _ _
             Hloop).
  rewrite <- (map_map snd path), enumerate_snd. reflexivity.
Qed.

Lemma mixed_pages_all_placed self world squares :
  (forall f l t w h, add_picture_ok world f l t w h = true) ->
  forall num portraits new,
    Forall (fun img => ~ ratio img == 0) squares ->
    Forall (fun img => ~ ratio img == 0) portraits ->
    mixed_pages self world num squares portraits new ->
    flat_map slide_files new = paired_paths squares portraits.
Proof.
  intros Hsink.
  induction squares as [| sq squares IH]; intros num [| po portraits] new
    Hsq Hpo; simpl; try (intros ->; reflexivity).
  destruct new as [| slide new]; [contradiction |].
  intros [(s & Hs & ->) Hrest]. simpl.
  inversion Hsq as [| ? ? Hsq1 Hsq2]; subst.
  inversion Hpo as [| ? ? Hpo1 Hpo2]; subst.
  rewrite add_page_number_files.
  rewrite (create_mixed_slide_all_placed self world [] sq po s Hsq1 Hpo1
             Hsink Hs).
  simpl. do 2 f_equal. exact (IH _ _ _ Hsq2 Hpo2 Hrest).
Qed.

Lemma row_pages_all_placed self world new :
  (forall f l t w h, add_picture_ok world f l t w h = true) ->
  forall num rest,
    Forall (fun img => ~ ratio img == 0) rest ->
    (List.length rest <= 3 * List.length new)%nat ->
    row_pages self world num rest new ->
    flat_map slide_files new = map path rest.
Proof.
  intros Hsink.
  induction new as [| slide new IH]; intros num rest Hratio Hlen;
    cbn [row_pages].
  - intros _. destruct rest; [reflexivity | simpl in Hlen; lia].
  - intros [(s & Hs & ->) Hrest]. cbn [flat_map].
    rewrite add_page_number_files.
    rewrite <- (firstn_skipn 3 rest) in Hratio.
    apply Forall_app in Hratio. destruct Hratio as [Hfirst Hlast].
    rewrite (create_portrait_slide_all_placed self world [] _ s Hfirst Hsink
               Hs).
    rewrite (IH _ _ Hlast) with (2 := Hrest).
    + cbn [slide_files flat_map app]. rewrite <- map_app, firstn_skipn.
      reflexivity.
    + rewrite length_skipn. simpl in Hlen. lia.
Qed.

Lemma portrait_groups_cover portraits idx :
  (List.length portraits - idx <= 3 * portrait_groups portraits idx)%nat.
Proof.
  unfold portrait_groups.
  set (rem := (Z.of_nat (List.length portraits) - Z.of_nat idx)%Z).
  destruct (rem >? 0)%Z eqn:E.
  - pose proof (Qle_ceiling (inject_Z rem / 3)) as H.
    assert (H3 : inject_Z rem <= inject_Z (Qceiling (inject_Z rem / 3) * 3)).
    { rewrite inject_Z_mult.
      assert (E3 : inject_Z rem == inject_Z rem / 3 * inject_Z 3) by field.
      rewrite E3 at 1. apply Qmult_le_compat_r; [exact H | discriminate]. }
    rewrite <- Zle_Qle in H3. unfold Py.ceil. unfold rem in *. lia.
  - rewrite Z.gtb_ltb in E. apply Z.ltb_ge in E. unfold rem in E. lia.
Qed.

(** X14. When the decoder reports no image of width zero and the sink
    accepts every picture, every portrait of a folder and every square
    that has a partner is placed, once and in list order: the pictures of
    the folder's pages, page after page, are the pairs of the [k]-th
    square and the [k]-th portrait, then the portraits that are left. *)
Theorem every_portrait_is_placed self world v folder_path listing portraits
    squares failed v' :
  dir world folder_path = Some listing ->
  classify_images_in_folder self world folder_path listing
  = (portraits, squares, failed) ->
  (forall p w h, image_size world p = Some (w, h) -> w <> 0%N) ->
  (forall f l t w h, add_picture_ok world f l t w h = true) ->
  folder_body self world v folder_path = Ok v' ->
  let m := Nat.min (List.length squares) (List.length portraits) in
  exists new,
    prs_slides v' = prs_slides v ++ new
    /\ flat_map slide_files new
       = paired_paths squares portraits ++ map path (skipn m portraits)
    /\ Permutation (flat_map slide_files new)
         (map path (firstn m squares) ++ map path portraits).
Proof.
  intros Hdir Hcls Hwidth Hsink Hrun m.
  destruct (bucket_ratios_nonzero _ _ _ _ _ _ _ Hwidth Hcls) as [Hsq Hpo].
  assert (Hfiles : exists new,
             prs_slides v' = prs_slides v ++ new
             /\ flat_map slide_files new
                = paired_paths squares portraits
                  ++ map path (skipn m portraits)).
  { destruct (Nat.eq_dec (List.length portraits + List.length squares) 0)
      as [Hzero | Hpos].
    - destruct portraits; [| simpl in Hzero; lia].
      destruct squares; [| simpl in Hzero; lia].
      rewrite (folder_body_empty self world v folder_path _ _ Hdir Hcls)
        in Hrun.
      injection Hrun as <-. exists []. simpl. rewrite app_nil_r. auto.
    - pose proof (folder_body_spec self world v folder_path listing portraits
                    squares failed Hdir Hcls ltac:(lia)) as Hspec.
      rewrite Hrun in Hspec.
      destruct Hspec
        as (mixed & rows & Hp & _ & _ & _ & _ & Hlr & Hmixed & Hrows).
      exists (mixed ++ rows). split; [exact Hp |].
      rewrite flat_map_app. f_equal.
      + exact (mixed_pages_all_placed self world squares Hsink _ _ _ Hsq Hpo
                 Hmixed).
      + apply (row_pages_all_placed self world rows Hsink _ _) with (3 := Hrows).
        * rewrite <- (firstn_skipn m portraits) in Hpo.
          apply Forall_app in Hpo. tauto.
        * rewrite Hlr, length_skipn. apply portrait_groups_cover. }
  destruct Hfiles as (new & Hp & Hfiles).
  exists new. split; [exact Hp |]. split; [exact Hfiles |].
  rewrite Hfiles. apply paired_paths_perm.
Qed.

Lemma str_of_nat_inj n m : Py.str_of_nat n = Py.str_of_nat m -> n = m.
Proof.
  unfold Py.str_of_nat. intros H. apply Unsigned.to_uint_inj.
  assert (E : Some (Nat.to_uint n) = Some (Nat.to_uint m)).
  { rewrite <- !NilEmpty.usu, H. reflexivity. }
  injection E as E. exact E.
Qed.

(** X16. When page numbers are shown, no two pages of a run carry the same
    number: the text boxes of two different slides differ. *)
Theorem page_numbers_are_distinct self world v j k slide_j slide_k :
  generate_ppt self world = Ok (Some v) ->
  show_page_numbers self = true ->
  nth_error (prs_slides v) j = Some slide_j ->
  nth_error (prs_slides v) k = Some slide_k ->
  j <> k ->
  slide_texts slide_j <> slide_texts slide_k.
Proof.
  intros Hrun Hshow Hj Hk Hjk Htexts.
  destruct (generate_ppt_blocks _ _ _ Hrun)
    as (cs & _ & _ & _ & _ & _ & Hpaged & _).
  destruct (Hpaged j slide_j Hj) as (sj & -> & Hsj).
  destruct (Hpaged k slide_k Hk) as (sk & -> & Hsk).
  rewrite !add_page_number_texts, Hsj, Hsk in Htexts.
  unfold label in Htexts. rewrite Hshow in Htexts. simpl in Htexts.
  injection Htexts as Htexts. apply str_of_nat_inj in Htexts. lia.
Qed.

(* ===================================================================== *)
(** ** Further properties: the configuration *)
(* ===================================================================== *)

Lemma split_nonempty sep s : PyStr.split sep s <> [].
Proof.
  destruct s as [| c s]; simpl; [discriminate |].
  destruct (Ascii.eqb c sep); [discriminate |].
  destruct (PyStr.split sep s); discriminate.
Qed.

(** Splitting at a separator: the pieces before it, then the pieces after
    it. *)
Lemma split_at_separator sep a b :
  PyStr.split sep (a ++ String sep b)
  = PyStr.split sep a ++ PyStr.split sep b.
Proof.
  induction a as [| c a IH]; cbn [append PyStr.split].
  - rewrite Ascii.eqb_refl. reflexivity.
  - destruct (Ascii.eqb c sep); rewrite IH; [reflexivity |].
    pose proof (split_nonempty sep a) as Hne.
    destruct (PyStr.split sep a) as [| piece pieces]; [contradiction |].
    reflexivity.
Qed.

Lemma add_folder_fold env pieces :
  forall acc,
    fold_left (add_folder env) pieces acc
    = acc
      ++ map (fun folder => abspath env (expanduser env (expandvars env folder)))
           (filter (fun folder => negb (String.length folder =? 0)%nat)
                   (map PyStr.strip pieces)).
Proof.
  induction pieces as [| piece pieces IH]; intros acc;
    cbn [fold_left map filter]; [symmetry; apply app_nil_r |].
  rewrite IH. unfold add_folder.
  destruct (negb (String.length (PyStr.strip piece) =? 0)%nat); cbn [map];
    [rewrite <- app_assoc |]; reflexivity.
Qed.

Lemma blank_pieces s :
  only_blanks_and_commas s = true ->
  Forall (fun piece => PyStr.drop_space false piece = EmptyString)
         (PyStr.split "," s).
Proof.
  induction s as [| c s IH]; cbn [only_blanks_and_commas PyStr.split].
  - intros _. constructor; [reflexivity | constructor].
  - intros H. apply andb_prop in H. destruct H as [Hc Hs].
    specialize (IH Hs).
    destruct (Ascii.eqb c ",") eqn:Hcomma.
    + constructor; [reflexivity | exact IH].
    + rewrite orb_false_r in Hc. apply Ascii.eqb_eq in Hc. subst c.
      destruct (PyStr.split "," s) as [| piece pieces]; [constructor; auto |].
      inversion IH as [| ? ? Hpiece Hpieces]; subst.
      constructor; [exact Hpiece | exact Hpieces].
Qed.

Lemma blank_pieces_strip s :
  only_blanks_and_commas s = true ->
  filter (fun folder => negb (String.length folder =? 0)%nat)
         (map PyStr.strip (PyStr.split "," s)) = [].
Proof.
  intros H. apply blank_pieces in H.
  induction H as [| piece pieces Hpiece _ IH]; cbn [map filter];
    [reflexivity |].
  unfold PyStr.strip at 1. rewrite Hpiece. cbn. exact IH.
Qed.

(** X17. [get_image_folders] returns the pieces of the configured value
    between commas, white space stripped, without the pieces that are
    empty then, in the configured order, each one expanded and made
    absolute; when the key is missing it returns the default folder
    alone. *)
Theorem image_folders_are_the_nonblank_pieces cm env :
  (forall folders_str,
      config cm "PATHS" "image_folders" = Some folders_str ->
      get_image_folders cm env
      = map (fun folder =>
               abspath env (expanduser env (expandvars env folder)))
          (filter (fun folder => negb (String.length folder =? 0)%nat)
                  (map PyStr.strip (PyStr.split "," folders_str))))
  /\ (config cm "PATHS" "image_folders" = None ->
      get_image_folders cm env = [abspath env "D:/我的图片"]).
Proof.
  unfold get_image_folders. split.
  - intros folders_str ->. apply (add_folder_fold env _ []).
  - intros ->. reflexivity.
Qed.

(** X18. A configured value of blanks and commas only gives no folder at
    all, and the run ends before a presentation is made. *)
Theorem blank_folder_list_stops_the_run cm env folders_str self world :
  config cm "PATHS" "image_folders" = Some folders_str ->
  only_blanks_and_commas folders_str = true ->
  image_folders self = get_image_folders cm env ->
  get_image_folders cm env = []
  /\ generate_ppt self world = Ok None.
Proof.
  intros Hconfig Hblank Hself.
  assert (Hnone : get_image_folders cm env = []).
  { unfold get_image_folders. rewrite Hconfig, add_folder_fold.
    rewrite (blank_pieces_strip _ Hblank). reflexivity. }
  split; [exact Hnone |].
  unfold generate_ppt. rewrite Hself, Hnone. reflexivity.
Qed.

(** X19. A comma at the start or at the end of the configured extensions,
    or two commas in a row, put an empty extension in the list, and every
    entry of a folder is then read as an image. *)
Theorem stray_comma_supports_every_file cm a b :
  config cm "SETTINGS" "supported_formats" = Some (a ++ "," ++ b)%string ->
  a = EmptyString \/ b = EmptyString \/ (exists b', b = ("," ++ b')%string) ->
  exists exts,
    get_list cm "SETTINGS" "supported_formats" = Some exts
    /\ In EmptyString exts
    /\ forall self name,
         supported_formats self = exts -> is_supported self name = true.
Proof.
  intros Hconfig Hstray.
  unfold get_list, value_or_default. rewrite Hconfig.
  eexists. split; [reflexivity |].
  assert (Hin : In EmptyString
                  (map PyStr.strip (PyStr.split "," (a ++ "," ++ b)))).
  { change EmptyString with (PyStr.strip EmptyString) at 1. apply in_map.
    change (a ++ "," ++ b)%string with (a ++ String "," b)%string.
    rewrite split_at_separator. apply in_or_app.
    destruct Hstray as [-> | [-> | [b' ->]]].
    - left. left. reflexivity.
    - right. left. reflexivity.
    - right. left. reflexivity. }
  split; [exact Hin |].
  intros self name Hexts. unfold is_supported. apply existsb_exists.
  exists EmptyString. rewrite Hexts. split; [exact Hin | apply endswith_empty].
Qed.

(* ===================================================================== *)
(** ** Further properties: the pictures of a page *)
(* ===================================================================== *)

(* ===================================================================== *)
(** ** The further properties on the demonstration world *)
(* ===================================================================== *)


Lemma demo_run :
  exists v, generate_ppt Demo.generator Demo.world = Ok (Some v).
Proof. vm_compute. eexists. reflexivity. Defined.

Lemma demo_widths p w h :
  image_size Demo.world p = Some (w, h) -> w <> 0%N.
Proof.
  cbn [image_size Demo.world].
  repeat match goal with
         | |- (if ?b then _ else _) = _ -> _ => destruct b
         end;
    intros H; try discriminate H; injection H as <- _; discriminate.
Qed.

Lemma demo_sink f l t w h : add_picture_ok Demo.world f l t w h = true.
Proof. reflexivity. Qed.

(** Folder [/a]: five of its six names have a supported extension. *)
Lemma classify_accounts_for_supported_names_witness :
  exists portraits squares failed,
    classify_images_in_folder Demo.generator Demo.world "/a"
      ["p1.jpg"; "wide.PNG"; "sq.png"; "notes.txt"; "p2.jpeg";
       "pano.jpg"]%string
    = (portraits, squares, failed)
    /\ (List.length portraits + List.length squares + failed = 5)%nat.
Proof.
  destruct (classify_images_in_folder Demo.generator Demo.world "/a" _)
    as [[portraits squares] failed] eqn:Hcls.
  exists portraits, squares, failed. split; [reflexivity |].
  rewrite (classify_accounts_for_supported_names _ _ _ _ _ _ _ Hcls).
  reflexivity.
Defined.

(** Folder [/a]: the first portrait is [p1.jpg] of the listing. *)
Lemma bucket_records_come_from_listing_witness :
  exists img name,
    nth_error
      (fst (fst (classify_images_in_folder Demo.generator Demo.world "/a"
                   ["p1.jpg"; "wide.PNG"; "sq.png"; "notes.txt"; "p2.jpeg";
                    "pano.jpg"]%string))) 0
    = Some img
    /\ name = "p1.jpg"%string
    /\ path img = OsPath.join "/a" name
    /\ filename img = name.
Proof.
  destruct (classify_images_in_folder Demo.generator Demo.world "/a" _)
    as [[portraits squares] failed] eqn:Hcls.
  assert (Hhead : exists img, nth_error portraits 0 = Some img
                              /\ path img = "/a/p1.jpg"%string).
  { vm_compute in Hcls. injection Hcls as <- _ _. eexists.
    split; reflexivity. }
  destruct Hhead as (img & Hnth & Hpath).
  destruct (bucket_records_come_from_listing _ _ _ _ _ _ _ img Hcls)
    as (name & Hname & _ & Hjoin & Hfile & _).
  { apply in_or_app. left. exact (nth_error_In _ _ Hnth). }
  exists img, name. split; [exact Hnth |].
  assert (E : name = "p1.jpg"%string).
  { apply (join_inj "/a"). rewrite <- Hjoin. exact Hpath. }
  split; [exact E |]. split; [exact Hjoin |].
  apply Hfile. rewrite E. reflexivity.
Defined.

(** With an empty extension in the list, [notes.txt] is read as an
    image. *)
Lemma empty_extension_matches_everything_witness :
  is_supported stray_comma_generator "notes.txt" = true
  /\ is_supported Demo.generator "notes.txt" = false.
Proof.
  split; [| reflexivity].
  apply (empty_extension_matches_everything stray_comma_generator "notes.txt").
  right. right. left. reflexivity.
Defined.


(** The demonstration run: five entries, the second for the folder that
    does not exist, and four pages in all. *)
Lemma summary_has_one_entry_per_folder_witness :
  exists v,
    generate_ppt Demo.generator Demo.world = Ok (Some v)
    /\ summary_names (folder_summary v)
       = ["a"; "missing"; "b"; "c"; "d"]%string
    /\ nth_error (folder_summary v) 1
       = Some ("missing", "文件夹不存在", 0%nat)%string
    /\ summary_pages (folder_summary v) = List.length (prs_slides v).
Proof.
  destruct demo_run as [v Hrun].
  destruct (summary_has_one_entry_per_folder _ _ v Hrun)
    as (Hnames & Hpages & _ & Hmissing).
  exists v. split; [exact Hrun |]. split; [exact Hnames |].
  split; [| exact Hpages].
  apply (Hmissing 1%nat "/missing"%string); reflexivity.
Defined.

(** The demonstration run: one block of pages for each of the five
    folders. *)
Lemma pages_are_grouped_by_folder_witness :
  exists v blocks,
    generate_ppt Demo.generator Demo.world = Ok (Some v)
    /\ prs_slides v = List.concat blocks
    /\ List.length blocks = 5%nat
    /\ map (@List.length Slide) blocks = map snd (folder_summary v).
Proof.
  destruct demo_run as [v Hrun].
  destruct (pages_are_grouped_by_folder _ _ v Hrun)
    as (blocks & Hslides & Hcounts & Hfiles).
  exists v, blocks. split; [exact Hrun |]. split; [exact Hslides |].
  split; [| exact Hcounts].
  rewrite <- (Forall2_length Hfiles). reflexivity.
Defined.

(** The first page of the demonstration run. *)
Lemma no_page_is_overfull_witness :
  exists v slide,
    generate_ppt Demo.generator Demo.world = Ok (Some v)
    /\ nth_error (prs_slides v) 0 = Some slide
    /\ (List.length (slide_files slide) <= 3)%nat
    /\ List.length (slide_texts slide) = 1%nat.
Proof.
  assert (Hrun : exists v slide,
             generate_ppt Demo.generator Demo.world = Ok (Some v)
             /\ nth_error (prs_slides v) 0 = Some slide).
  { vm_compute. do 2 eexists. split; reflexivity. }
  destruct Hrun as (v & slide & Hrun & Hnth).
  exists v, slide. split; [exact Hrun |]. split; [exact Hnth |].
  exact (no_page_is_overfull _ _ v slide Hrun (nth_error_In _ _ Hnth)).
Defined.

(** Folder [/e], one square and five portraits: the pair, then the four
    portraits that are left. *)
Lemma every_portrait_is_placed_witness :
  exists v' new,
    folder_body Demo.generator Demo.world initial_vars "/e" = Ok v'
    /\ prs_slides v' = new
    /\ flat_map slide_files new
       = ["/e/s.png"; "/e/1.jpg"; "/e/2.jpg"; "/e/3.jpg"; "/e/4.jpg";
          "/e/5.jpg"]%string.
Proof.
  assert (Hrun : exists v',
             folder_body Demo.generator Demo.world initial_vars "/e" = Ok v').
  { vm_compute. eexists. reflexivity. }
  destruct Hrun as [v' Hrun].
  destruct (every_portrait_is_placed Demo.generator Demo.world initial_vars
              "/e" _ _ _ _ v' eq_refl eq_refl demo_widths demo_sink Hrun)
    as (new & Hslides & Hfiles & _).
  exists v', new. split; [exact Hrun |]. split; [exact Hslides |].
  exact Hfiles.
Defined.

(** The first two pages of the demonstration run. *)
Lemma page_numbers_are_distinct_witness :
  exists v slide_j slide_k,
    generate_ppt Demo.generator Demo.world = Ok (Some v)
    /\ nth_error (prs_slides v) 0 = Some slide_j
    /\ nth_error (prs_slides v) 1 = Some slide_k
    /\ slide_texts slide_j <> slide_texts slide_k.
Proof.
  assert (Hrun : exists v slide_j slide_k,
             generate_ppt Demo.generator Demo.world = Ok (Some v)
             /\ nth_error (prs_slides v) 0 = Some slide_j
             /\ nth_error (prs_slides v) 1 = Some slide_k).
  { vm_compute. do 3 eexists. repeat split; reflexivity. }
  destruct Hrun as (v & slide_j & slide_k & Hrun & Hj & Hk).
  exists v, slide_j, slide_k.
  split; [exact Hrun |]. split; [exact Hj |]. split; [exact Hk |].
  apply (page_numbers_are_distinct Demo.generator Demo.world v 0 1 _ _ Hrun
           eq_refl Hj Hk).
  discriminate.
Defined.

(** The second demonstration configuration. *)
Lemma blank_folder_list_stops_the_run_witness :
  get_image_folders blank_config demo_env = []
  /\ generate_ppt (default_generator (get_image_folders blank_config demo_env))
       Demo.world
     = Ok None.
Proof.
  apply (blank_folder_list_stops_the_run blank_config demo_env " , ,"
           (default_generator (get_image_folders blank_config demo_env))
           Demo.world);
    reflexivity.
Defined.

(** The first demonstration configuration: its extensions end with a
    comma. *)
Lemma stray_comma_supports_every_file_witness :
  get_list demo_config "SETTINGS" "supported_formats"
  = Some (supported_formats stray_comma_generator)
  /\ is_supported stray_comma_generator "notes.txt" = true.
Proof.
  destruct (stray_comma_supports_every_file demo_config ".jpg, .png" ""
              eq_refl (or_intror (or_introl eq_refl)))
    as (exts & Hget & _ & Hall).
  split; [reflexivity |].
  apply (Hall stray_comma_generator "notes.txt"%string).
  vm_compute in Hget. injection Hget as <-. reflexivity.
Defined.

(* ===================================================================== *)
(** ** Binary64: comparisons, subtraction and division *)
(* ===================================================================== *)

Section Binary64.

Import PrimFloat FloatOps FloatAxioms SpecFloat.
Local Open Scope float_scope.




Lemma zero_shape : Prim2SF 0 = S754_zero false.
Proof. reflexivity. Qed.

Lemma one_shape : Prim2SF 1 = S754_finite false 4503599627370496 (-52).
Proof. reflexivity. Qed.


Lemma float_pos_nonzero r : (0 <? r) = true -> (r =? 0) = false.
Proof.
  rewrite ltb_spec, eqb_spec, zero_shape. unfold SFltb, SFeqb.
  destruct (Prim2SF r) as [s | s | | s m e]; simpl;
    try discriminate; try reflexivity; destruct s; reflexivity.
Qed.

Lemma float_ge_one_nonzero r : (1 <=? r) = true -> (r =? 0) = false.
Proof.
  rewrite leb_spec, eqb_spec, zero_shape, one_shape. unfold SFleb, SFeqb.
  destruct (Prim2SF r) as [s | s | | s m e]; simpl;
    try discriminate; try reflexivity; destruct s; reflexivity.
Qed.

(** A number above one that is not negative is not zero. *)
Lemma float_divisor_nonzero a t :
  (a <? t) = true -> (0 <=? a) = true -> (t =? 0) = false.
Proof.
  rewrite ltb_spec, leb_spec, eqb_spec, zero_shape.
  unfold SFltb, SFleb, SFeqb.
  destruct (Prim2SF t) as [s | s | | s m e];
    destruct (Prim2SF a) as [s' | s' | | s' m' e']; simpl;
    try discriminate; try reflexivity;
    try (destruct s; reflexivity); destruct s'; discriminate.
Qed.

Lemma min_self64 a : B64.min a a = a.
Proof. unfold B64.min. destruct (a <? a); reflexivity. Qed.




Lemma truediv_ok64 a b : (b =? 0) = false -> B64.truediv a b = Ok (a / b).
Proof. intros H. unfold B64.truediv. rewrite H. reflexivity. Qed.

Lemma fit_rect_eq64 r left top width height :
  (r =? 0) = false ->
  B64.fit_rect r left top width height
  = Ok (left + (width - B64.fit_width r width height) / 2,
        top + (height - B64.fit_height r width height) / 2,
        B64.fit_width r width height,
        B64.fit_height r width height).
Proof.
  intros Hr. unfold B64.fit_rect, B64.fit_width, B64.fit_height.
  destruct (1 <=? r); rewrite truediv_ok64 by exact Hr; reflexivity.
Qed.

Lemma fit_rect_zero64 r left top width height :
  (r =? 0) = true ->
  B64.fit_rect r left top width height = Raise ZeroDivisionError.
Proof.
  intros Hr. unfold B64.fit_rect, B64.truediv.
  destruct (1 <=? r) eqn:Hge.
  - rewrite (float_ge_one_nonzero _ Hge) in Hr. discriminate Hr.
  - rewrite Hr. reflexivity.
Qed.

End Binary64.

(* ===================================================================== *)
(** ** Binary64: the classifier, the fit and the mixed template *)
(* ===================================================================== *)

Section Binary64Layout.

Import PrimFloat FloatOps FloatAxioms SpecFloat.
Local Open Scope float_scope.

Variable self : B64.SmartPPTGenerator.
Variable world : B64.World.

Lemma robust_read_image_inv64 filepath img :
  B64.robust_read_image world filepath = Some img ->
  B64.path img = filepath
  /\ B64.image_size world filepath = Some (B64.width img, B64.height img)
  /\ B64.height img <> 0%N
  /\ B64.ratio img
     = B64.of_Z (Z.of_N (B64.width img)) / B64.of_Z (Z.of_N (B64.height img)).
Proof.
  unfold B64.robust_read_image.
  destruct (B64.image_size world filepath) as [[w h] |]; [| discriminate].
  unfold B64.int_truediv. destruct (N.eqb_spec h 0) as [-> | Hh];
    [discriminate |].
  intros H. injection H as <-. simpl. auto.
Qed.

Lemma classify_is_portrait64 img :
  B64.classify self (B64.ratio img)
  = if B64.is_portrait self img then Portrait else SquareOrLandscape.
Proof.
  unfold B64.classify, B64.is_portrait.
  destruct (_ <=? _); [reflexivity |]. destruct (_ && _); reflexivity.
Qed.

Lemma classify_fold64 folder_path listing portraits squares failed :
  fold_left (B64.classify_step self world folder_path) listing
            (portraits, squares, failed)
  = (portraits
       ++ filter (B64.is_portrait self)
            (B64.inspected self world folder_path listing),
     squares
       ++ filter (fun i => negb (B64.is_portrait self i))
            (B64.inspected self world folder_path listing),
     (failed
      + List.length (B64.unreadable self world folder_path listing))%nat).
Proof.
  revert portraits squares failed.
  induction listing as [| name rest IH]; intros portraits squares failed.
  - simpl. rewrite !app_nil_r, Nat.add_0_r. reflexivity.
  - cbn [fold_left]. unfold B64.inspected, B64.unreadable.
    cbn [flat_map filter].
    fold (B64.inspected self world folder_path rest).
    fold (B64.unreadable self world folder_path rest).
    unfold B64.classify_step at 2.
    destruct (B64.is_supported self name); cbn [andb].
    + destruct (B64.robust_read_image world _) as [img |].
      * rewrite classify_is_portrait64. cbn [app filter].
        destruct (B64.is_portrait self img); cbn [negb]; rewrite IH;
          rewrite <- app_assoc; reflexivity.
      * rewrite IH. cbn [app List.length]. f_equal. lia.
    + apply IH.
Qed.

Lemma inspected_inv64 folder_path listing img :
  In img (B64.inspected self world folder_path listing) ->
  exists name,
    In name listing /\ B64.is_supported self name = true
    /\ B64.robust_read_image world (OsPath.join folder_path name) = Some img.
Proof.
  unfold B64.inspected. rewrite in_flat_map. intros (name & Hin & Himg).
  exists name. destruct (B64.is_supported self name); [| contradiction].
  destruct (B64.robust_read_image world _) as [i |]; [| contradiction].
  destruct Himg as [-> | []]. auto.
Qed.

End Binary64Layout.

(* ===================================================================== *)
(** ** Binary64: the properties of the classifier and of the fit *)
(* ===================================================================== *)

Section Binary64Claims.

Import PrimFloat FloatOps FloatAxioms SpecFloat.
Local Open Scope float_scope.

(** C5. Every supported file that could be read, with the binary64
    quotient of its width by its height as ratio, goes to the portraits
    when [ratio <= portrait_threshold] in binary64 and to the squares
    otherwise, whatever [square_min] and [square_max] are; the classifier
    has these two buckets only, and the files that could not be read are
    counted. *)
Theorem classifier_two_buckets (self : B64.SmartPPTGenerator)
    (world : B64.World) folder_path listing :
  let imgs := B64.inspected self world folder_path listing in
  B64.classify_images_in_folder self world folder_path listing
  = (filter (B64.is_portrait self) imgs,
     filter (fun i => negb (B64.is_portrait self i)) imgs,
     List.length (B64.unreadable self world folder_path listing))
  /\ (forall img,
        In img imgs ->
        B64.height img <> 0%N
        /\ B64.ratio img
           = B64.of_Z (Z.of_N (B64.width img))
             / B64.of_Z (Z.of_N (B64.height img)))
  /\ (forall img,
        B64.is_portrait self img = true
        <-> (B64.ratio img <=? B64.portrait_threshold self) = true)
  /\ (forall r,
        B64.classify self r = Portrait
        <-> (r <=? B64.portrait_threshold self) = true)
  /\ (forall r,
        B64.classify self r = SquareOrLandscape
        <-> (r <=? B64.portrait_threshold self) = false).
Proof.
  intros imgs. split; [| split; [| split; [| split]]].
  - unfold B64.classify_images_in_folder. rewrite classify_fold64.
    reflexivity.
  - intros img Hin.
    destruct (inspected_inv64 _ _ _ _ _ Hin) as (name & _ & _ & Hread).
    destruct (robust_read_image_inv64 _ _ _ Hread) as (_ & _ & Hh & Hr).
    auto.
  - intros img. reflexivity.
  - intros r. unfold B64.classify.
    destruct (r <=? _); [tauto |].
    destruct (_ && _); split; intros H; discriminate H.
  - intros r. unfold B64.classify.
    destruct (r <=? _); [split; intros H; discriminate H |].
    destruct (_ && _); tauto.
Qed.

(** The classifier at a threshold equal to a rounded ratio: a 1000x3000
    image has the ratio 0x1.5555555555555p-2, the binary64 number next to
    one third, and is a portrait for a threshold of that value. *)
Example ratio_equal_to_the_threshold :
  let self :=
    {| B64.image_area_ratio := 7 / 10;
       B64.page_width := 15120000;
       B64.page_height := 10692000;
       B64.margin := 540000;
       B64.gap := 432000;
       B64.border_width := 12700;
       B64.supported_formats := [".jpg"%string];
       B64.portrait_threshold := 0x1.5555555555555p-2;
       B64.square_min := 9 / 10;
       B64.square_max := 11 / 10 |} in
  exists img,
    B64.classify_images_in_folder self B64.gallery "/g"
      ["1000x3000.jpg"%string]
    = ([img], [], 0%nat)
    /\ B64.ratio img = 0x1.5555555555555p-2.
Proof.
  intros self. eexists. split; reflexivity.
Qed.

(** X6. [add_image_to_slide] adds one picture or nothing.  The picture is
    added exactly when the ratio of the image is not zero and
    [add_picture] accepts the fitted rectangle: the slide then has one
    more shape, the picture of the image's file at that rectangle, and
    it is as before otherwise.  The answer is [True] exactly when, in
    addition, the border step does not raise; when the line width is
    refused the answer is [False] and the picture stays, without a line
    width. *)
Theorem add_image_adds_one_picture_or_nothing (self : B64.SmartPPTGenerator)
    (world : B64.World) s img left top width height :
  let r := B64.add_image_to_slide self world s img left top width height in
  let new_width := B64.fit_width (B64.ratio img) width height in
  let new_height := B64.fit_height (B64.ratio img) width height in
  let left_c := left + (width - new_width) / 2 in
  let top_c := top + (height - new_height) / 2 in
  let placed :=
    negb (B64.ratio img =? 0)
    && B64.add_picture_ok world (B64.path img) left_c top_c new_width
         new_height in
  (snd r = true <-> placed = true /\ B64.border_ok self world = true)
  /\ (placed = true ->
      fst r
      = s ++ [B64.Picture (B64.path img) left_c top_c new_width new_height
                (if B64.border_ok self world then B64.line self else None)])
  /\ (placed = false -> r = (s, false)).
Proof.
  intros r new_width new_height left_c top_c placed. subst r placed.
  unfold B64.add_image_to_slide, B64.border_ok, B64.line.
  destruct (B64.ratio img =? 0) eqn:Hzero; cbn [negb andb].
  - rewrite (fit_rect_zero64 _ left top width height Hzero). simpl.
    split; [| split]; try discriminate; try reflexivity.
    split; [discriminate | intros [H _]; discriminate H].
  - rewrite (fit_rect_eq64 _ left top width height Hzero).
    fold new_width new_height left_c top_c.
    destruct (B64.add_picture_ok world (B64.path img) left_c top_c new_width
                new_height).
    + destruct (0 <? B64.border_width self)%Z; cbn [negb orb];
        [destruct (B64.line_width_ok world (B64.border_width self)) |];
        cbn [fst snd]; (split; [| split]);
        try reflexivity; try discriminate; try tauto.
    + cbn [fst snd]. split; [| split]; try discriminate; try reflexivity.
      split; [discriminate | intros [H _]; discriminate H].
Qed.







(** Off the round trip the fit does change such a cell: the height it
    returns is not the height of the cell. *)
Lemma fit_changes_height_off_round_trip (r left top width height : float) :
  (0 <? r) = true -> width = height * r ->
  (if 1 <=? r then negb (width / r =? height) else width / r <? height)
  = true ->
  exists left_c top_c new_width new_height,
    B64.fit_rect r left top width height
    = Ok (left_c, top_c, new_width, new_height)
    /\ (new_height =? height) = false.
Proof.
  intros Hr Hcell Hoff.
  rewrite (fit_rect_eq64 _ left top width height (float_pos_nonzero _ Hr)).
  do 4 eexists. split; [reflexivity |].
  unfold B64.fit_height. destruct (1 <=? r) eqn:Hge.
  - rewrite <- Hcell, min_self64.
    destruct (width / r =? height); [discriminate Hoff | reflexivity].
  - unfold B64.min. rewrite Hoff.
    revert Hoff. rewrite ltb_spec, eqb_spec. unfold SFltb, SFeqb.
    destruct (SFcompare _ _) as [[] |]; congruence.
Qed.

(** X15. On a canvas whose lengths convert to binary64 without rounding
    and that is at least as wide as its two margins, the mixed template
    returns, whatever the ratios of the two images and whatever the sink
    does; when it raises, the exception is the one of the division by a
    total width of zero, on a canvas narrower than its two margins. *)
Theorem mixed_template_raises_only_on_a_narrow_canvas
    (self : B64.SmartPPTGenerator) (world : B64.World) s square_img
    portrait_img :
  B64.in_range self = true ->
  ((0 <=? B64.of_Z (B64.available_width self)) = true ->
   exists s',
     B64.create_mixed_slide self world s square_img portrait_img = Ok s')
  /\ (forall e,
        B64.create_mixed_slide self world s square_img portrait_img = Raise e ->
        e = ZeroDivisionError
        /\ (0 <=? B64.of_Z (B64.available_width self)) = false).
Proof.
  intros _.
  assert (Hcases :
    (exists cells, B64.mixed_cells self square_img portrait_img = Ok cells)
    \/ (B64.mixed_cells self square_img portrait_img = Raise ZeroDivisionError
        /\ (0 <=? B64.of_Z (B64.available_width self)) = false)).
  { unfold B64.mixed_cells.
    destruct (_ <? _) eqn:Hgt; [| left; simpl; eauto].
    unfold B64.truediv.
    destruct (_ =? 0) eqn:Hzero; [| left; simpl; eauto].
    right. split; [reflexivity |].
    destruct (0 <=? B64.of_Z (B64.available_width self)) eqn:Hcanvas;
      [| reflexivity].
    rewrite (float_divisor_nonzero _ _ Hgt Hcanvas) in Hzero.
    discriminate Hzero. }
  unfold B64.create_mixed_slide.
  destruct Hcases as [[[[[[x1 y1] w1] h1] [[[x2 y2] w2] h2]] ->] | [-> Hneg]];
    cbn [Py.bind].
  - split; [eauto | intros e H; discriminate H].
  - split.
    + intros Hcanvas. rewrite Hcanvas in Hneg. discriminate Hneg.
    + intros e H. injection H as <-. auto.
Qed.

(** The page of the 1600x900 landscape with the 1365x2048 portrait on the
    reference canvas. *)
Lemma mixed_template_raises_only_on_a_narrow_canvas_witness :
  exists landscape upright,
    B64.classify_images_in_folder B64.default_generator B64.gallery "/g"
      ["1600x900.jpg"; "1365x2048.jpg"]%string
    = ([upright], [landscape], 0%nat)
    /\ B64.in_range B64.default_generator = true
    /\ (0 <=? B64.of_Z (B64.available_width B64.default_generator)) = true
    /\ exists s',
         B64.create_mixed_slide B64.default_generator B64.gallery []
           landscape upright
         = Ok s'.
Proof.
  do 2 eexists.
  split; [vm_compute; reflexivity |].
  split; [reflexivity |]. split; [reflexivity |].
  apply mixed_template_raises_only_on_a_narrow_canvas; reflexivity.
Defined.

(** The same page on a canvas narrower than its two margins, with an image
    area of zero and no gap: the total width is zero and the template
    raises. *)
Example mixed_template_raises_on_a_narrow_canvas :
  exists landscape upright,
    B64.classify_images_in_folder B64.narrow_generator B64.gallery "/g"
      ["1600x900.jpg"; "1365x2048.jpg"]%string
    = ([upright], [landscape], 0%nat)
    /\ B64.in_range B64.narrow_generator = true
    /\ B64.available_width B64.narrow_generator = (-720000)%Z
    /\ B64.create_mixed_slide B64.narrow_generator B64.gallery [] landscape
         upright
       = Raise ZeroDivisionError.
Proof.
  do 2 eexists. repeat (split; [vm_compute; reflexivity |]).
  vm_compute. reflexivity.
Qed.

End Binary64Claims.
